(** * LookupNPI: the paginated search-and-disambiguation flow of [loop.go]

    A shallow embedding of the second revision of [src/loop/loop.go]
    (the one with [CreateFormInputs], [RemoveSpaces] and [CreateListElements])
    together with the properties of its search sessions.

    Conventions.
    - Go's [string] is a sequence of bytes: Rocq's [string]; [len] is
      [String.length].  Go's [int] is taken to be 64 bits wide and is a [Z]
      with its wrap-around written out ([wrap]).
    - The three package-level variables [limit], [skip] and [searchParams]
      live in the record [World], next to a journal of what the loop did to
      its host: the URLs it requested, the whispers it emitted and the
      lines it logged.
    - The host (network, JSON decoder, whisper service) is the record [Host]:
      what each call answers is chosen by the environment.
    - A goroutine body is run atomically at the moment it is spawned; the
      interleavings of section 5 of the design are out of the model.
    - Whether the host's [Disambiguation] call returns as soon as the list is
      on screen or only when the list is closed is left to the host: the
      selections delivered before [run]'s call returns are the argument
      [during] of [run], the later ones are events of their own.
    - A nil dereference is the outcome [Panic]; the journal up to the panic
      is kept. *)

From Stdlib Require Import ZArith String Ascii List Lia Bool.
From stdpp Require Import base gmap strings pretty list.

Local Open Scope Z_scope.
Local Open Scope string_scope.

(** ** Go values *)

Definition error : Type := string.

(** Go's 64-bit [int]. *)
Definition min_int : Z := - 2 ^ 63.
Definition max_int : Z := 2 ^ 63 - 1.
Definition wrap (z : Z) : Z := (z + 2 ^ 63) mod 2 ^ 64 - 2 ^ 63.
Definition uint32 (z : Z) : Z := z mod 2 ^ 32.

(** [len(s)] *)
Definition len (s : string) : Z := Z.of_nat (String.length s).

(** [fmt.Sprintf("%v", b)] for a bool. *)
Definition pretty_bool (b : bool) : string := if b then "true" else "false".

(** [strings.ReplaceAll(s, old, new)] for one-byte [old] and [new], the only
    way the program calls it. *)
Fixpoint ReplaceAll (s : string) (old new : ascii) : string :=
  match s with
  | EmptyString => EmptyString
  | String c rest =>
      String (if Ascii.eqb c old then new else c) (ReplaceAll rest old new)
  end.

(** ** The data types of [loop.go] *)

Module Basic.
Record t := mk {
  FirstName : string;
  LastName : string;
  Organization : string;
}.
End Basic.

Module OtherName.
Record t := mk {
  Type_ : string;
  Prefix : string;
  FirstName : string;
  LastName : string;
  Organization : string;
}.
End OtherName.

Module Address.
Record t := mk {
  City : string;
  State : string;
  PostalCode : string;
  Country : string;
}.
End Address.

Module Taxonomy.
Record t := mk {
  Code : string;
  Description : string;
  Primary : bool;
  State : string;
  License : string;
}.
End Taxonomy.

Module NpiInfo.
Record t := mk {
  Number : Z;
  Basic : Basic.t;
  EnumerationType : string;
  Taxonimies : list Taxonomy.t;
  Addresses : list Address.t;
  OtherNames : list OtherName.t;
}.
End NpiInfo.

Module LookupResults.
Record t := mk {
  ResultCount : Z;
  Results : list NpiInfo.t;
}.
(** [var lookupResults LookupResults] *)
Definition zero : t := mk 0 [].
End LookupResults.

Module SearchParams.
Record t := mk {
  Number : string;
  FirstName : string;
  LastName : string;
  City : string;
  State : string;
  Organization : string;
}.
Definition zero : t := mk "" "" "" "" "" "".
End SearchParams.

Module HTTPResponse.
Record t := mk {
  ResponseCode : Z;
  Data : string;
}.
End HTTPResponse.

(** ** What the loop hands to the host *)

(** The [OnChange] closures of the disambiguation options, by what they
    capture: a record's closure captures [item]; the two navigation closures
    capture nothing and work on the package-level variables. *)
Inductive Action :=
  | ShowDetail (item : NpiInfo.t)
  | NextPage
  | PrevPage.

(** [ldk.WhisperContentDisambiguationElementOption] *)
Module DOption.
Record t := mk {
  Label : string;
  Order : Z;
  OnChange : Action;
}.
End DOption.

(** [ldk.WhisperContentListElementPair] *)
Module Pair.
Record t := mk {
  Label : string;
  Order : Z;
  Value : string;
}.
End Pair.

Inductive Whisper :=
  | WForm (label markdown cancelLabel submitLabel : string)
  | WMarkdown (label markdown : string)
  | WDisambiguation (label : string) (elements : gmap string DOption.t)
  | WList (label : string) (elements : gmap string Pair.t).

Inductive LogEntry :=
  | Info (msg : string)
  | Error (msg : string) (err : error).

(** The package-level variables and the journal. [limit] is never assigned
    after its initialisation and is the constant below. *)
Record World := mkWorld {
  skip : Z;
  searchParams : SearchParams.t;
  sent : list string;
  shown : list Whisper;
  logged : list LogEntry;
}.

Definition limit : Z := 20.

(** [var skip int = 0; var searchParams SearchParams] *)
Definition initial : World := mkWorld 0 SearchParams.zero [] [] [].

(** ** A state monad with panics *)

Inductive Res (A : Type) :=
  | Ok (a : A) (w : World)
  | Panic (w : World).
Arguments Ok {A} a w.
Arguments Panic {A} w.

Definition M (A : Type) : Type := World -> Res A.

Definition ret {A} (a : A) : M A := fun w => Ok a w.
Definition bind {A B} (m : M A) (k : A -> M B) : M B :=
  fun w => match m w with
           | Ok a w' => k a w'
           | Panic w' => Panic w'
           end.
Definition panic {A} : M A := fun w => Panic w.
Definition gets {A} (f : World -> A) : M A := fun w => Ok (f w) w.
Definition modify (f : World -> World) : M unit := fun w => Ok tt (f w).

(** [x ← m; k] and [m;; k] are stdpp's notations for [mbind]. *)
#[global] Instance M_ret : MRet M := @ret.
#[global] Instance M_bind : MBind M := fun A B k m => bind m k.

(** The world a computation leaves behind, panic or not. *)
Definition world_of {A} (r : Res A) : World :=
  match r with Ok _ w => w | Panic w => w end.

Definition panicked {A} (r : Res A) : bool :=
  match r with Ok _ _ => false | Panic _ => true end.

Definition set_skip (z : Z) : M unit :=
  modify (fun w => mkWorld z (searchParams w) (sent w) (shown w) (logged w)).
Definition set_searchParams (p : SearchParams.t) : M unit :=
  modify (fun w => mkWorld (skip w) p (sent w) (shown w) (logged w)).
Definition log (e : LogEntry) : M unit :=
  modify (fun w => mkWorld (skip w) (searchParams w) (sent w) (shown w)
                     (logged w ++ [e])).

Fixpoint forM_ {A} (l : list A) (f : A -> M unit) : M unit :=
  match l with
  | [] => ret tt
  | a :: rest => f a ;; forM_ rest f
  end.

(** ** Formatting *)

Definition nl : string := String (ascii_of_nat 10) "".

(** The [fmt.Sprintf] of [GetLookupResults]. *)
Definition lookup_url (searchParams : SearchParams.t) (limit skip : Z) : string :=
  "https://npiregistry.cms.hhs.gov/api/?number=" +:+ SearchParams.Number searchParams
  +:+ "&enumeration_type=&taxonomy_description=&first_name="
  +:+ SearchParams.FirstName searchParams
  +:+ "&last_name=" +:+ SearchParams.LastName searchParams
  +:+ "&organization_name=" +:+ SearchParams.Organization searchParams
  +:+ "&address_purpose=&city=" +:+ SearchParams.City searchParams
  +:+ "&state=" +:+ SearchParams.State searchParams
  +:+ "&postal_code=&country_code=&limit=" +:+ pretty limit
  +:+ "&skip=" +:+ pretty skip +:+ "&version=2.0".

(** The [fmt.Sprintf] of the three [WhisperContentDisambiguation] labels. *)
Definition results_label (searchParams : SearchParams.t) : string :=
  "LookupNPI Results for: " +:+ SearchParams.Number searchParams
  +:+ " " +:+ SearchParams.FirstName searchParams
  +:+ " " +:+ SearchParams.LastName searchParams
  +:+ " " +:+ SearchParams.Organization searchParams
  +:+ " " +:+ SearchParams.City searchParams
  +:+ " " +:+ SearchParams.State searchParams.

(** ** The pure functions of [loop.go] *)

Definition RemoveSpaces (params : SearchParams.t) : SearchParams.t :=
  let City := ReplaceAll (SearchParams.City params) " " "+" in
  let FirstName := ReplaceAll (SearchParams.FirstName params) " " "+" in
  let LastName := ReplaceAll (SearchParams.LastName params) " " "+" in
  let Number := ReplaceAll (SearchParams.Number params) " " "+" in
  let Organization := ReplaceAll (SearchParams.Organization params) " " "+" in
  let State := ReplaceAll (SearchParams.State params) " " "+" in
  SearchParams.mk Number FirstName LastName City State Organization.

Fixpoint CreateTaxonomyStrings_from (i : Z) (taxonomies : list Taxonomy.t)
    (taxonomyString : string) : string :=
  match taxonomies with
  | [] => taxonomyString
  | tax :: rest =>
      CreateTaxonomyStrings_from (i + 1) rest
        (taxonomyString +:+ pretty (i + 1) +:+ ") Primary:"
         +:+ pretty_bool (Taxonomy.Primary tax)
         +:+ "  Code:" +:+ Taxonomy.Code tax
         +:+ " Description:" +:+ Taxonomy.Description tax
         +:+ " State:" +:+ Taxonomy.State tax
         +:+ " License:" +:+ Taxonomy.License tax +:+ nl)
  end.

Definition CreateTaxonomyStrings (taxonomies : list Taxonomy.t) : string :=
  CreateTaxonomyStrings_from 0 taxonomies "".

Fixpoint CreateAddressStrings_from (i : Z) (addresses : list Address.t)
    (addressString : string) : string :=
  match addresses with
  | [] => addressString
  | address :: rest =>
      CreateAddressStrings_from (i + 1) rest
        (addressString +:+ pretty (i + 1) +:+ ") " +:+ Address.City address
         +:+ ", " +:+ Address.State address
         +:+ " " +:+ Address.PostalCode address
         +:+ " " +:+ Address.Country address +:+ nl)
  end.

Definition CreateAddressStrings (addresses : list Address.t) : string :=
  CreateAddressStrings_from 0 addresses "".

(** The [for i := range item.OtherNames] loop of [CreateListElements]. *)
Fixpoint other_names_from (i : Z) (names : list OtherName.t)
    (elements : gmap string Pair.t) : gmap string Pair.t :=
  match names with
  | [] => elements
  | name :: rest =>
      other_names_from (i + 1) rest
        (<[pretty i := Pair.mk (OtherName.Type_ name) 4
             (OtherName.Prefix name +:+ " " +:+ OtherName.FirstName name
              +:+ " " +:+ OtherName.LastName name
              +:+ " " +:+ OtherName.Organization name)]> elements)
  end.

Definition CreateListElements (item : NpiInfo.t) : gmap string Pair.t :=
  let enumerationName :=
    if String.eqb (NpiInfo.EnumerationType item) "NPI-1" then "Individual"
    else if String.eqb (NpiInfo.EnumerationType item) "NPI-2" then "Organization"
    else "" in
  let elements : gmap string Pair.t := ∅ in
  let elements :=
    <["number" := Pair.mk "NPI Number" 1 (pretty (NpiInfo.Number item))]> elements in
  let elements :=
    <["name" := Pair.mk "Provider Name" 2
        (Basic.FirstName (NpiInfo.Basic item) +:+ " "
         +:+ Basic.LastName (NpiInfo.Basic item))]> elements in
  let elements :=
    <["organization" := Pair.mk "Organization" 3
        (Basic.Organization (NpiInfo.Basic item))]> elements in
  let elements :=
    <["enumeration" := Pair.mk "Enumeration Type" 5 enumerationName]> elements in
  let elements :=
    <["address" := Pair.mk "Addresses" 6
        (CreateAddressStrings (NpiInfo.Addresses item))]> elements in
  let elements :=
    <["taxonomy" := Pair.mk "Taxonomies" 7
        (CreateTaxonomyStrings (NpiInfo.Taxonimies item))]> elements in
  other_names_from 0 (NpiInfo.OtherNames item) elements.

(** The [label] variable of one iteration of the loop of
    [CreateDisambiguationElements]: two independent [if]s, the second
    overwriting the first. *)
Definition item_label (item : NpiInfo.t) : string :=
  let label := "" in
  let label :=
    if negb (String.eqb (Basic.FirstName (NpiInfo.Basic item)) "")
    then "Name: " +:+ Basic.FirstName (NpiInfo.Basic item)
         +:+ " " +:+ Basic.LastName (NpiInfo.Basic item)
    else label in
  let label :=
    if negb (String.eqb (Basic.Organization (NpiInfo.Basic item)) "")
    then "Organization: " +:+ Basic.Organization (NpiInfo.Basic item)
    else label in
  label.

(** The option stored under key [i] by that iteration. *)
Definition item_option (i : Z) (item : NpiInfo.t) : DOption.t :=
  DOption.mk
    ("* NPI: " +:+ pretty (NpiInfo.Number item) +:+ ", " +:+ item_label item)
    (uint32 (uint32 i + 1))
    (ShowDetail item).

(** The [for i := range results] loop, from index [i] on. *)
Fixpoint item_options_from (i : Z) (results : list NpiInfo.t)
    (elements : gmap string DOption.t) : gmap string DOption.t :=
  match results with
  | [] => elements
  | item :: rest =>
      item_options_from (i + 1) rest (<[pretty i := item_option i item]> elements)
  end.

Definition CreateDisambiguationElements (results : list NpiInfo.t)
    : gmap string DOption.t :=
  let elements : gmap string DOption.t := ∅ in
  let elements := item_options_from 0 results elements in
  let elements :=
    if (Z.of_nat (length results) =? limit)%Z
    then <["next" := DOption.mk "Next 20 Results"
             (uint32 (uint32 (Z.of_nat (length results)) + 1)) NextPage]> elements
    else elements in
  let elements :=
    <["prev" := DOption.mk "Previous 20 Results"
        (uint32 (uint32 (Z.of_nat (length results)) + 1)) PrevPage]> elements in
  elements.

(** The updates of the cursor made by the two navigation closures:
    [skip += limit] and [if skip != 0 { skip -= limit }]. *)
Definition next_skip (skip : Z) : Z := wrap (skip + limit).
Definition prev_skip (skip : Z) : Z :=
  if negb (skip =? 0)%Z then wrap (skip - limit) else skip.

(** [ClearSearchParams] assigns the empty string to each of the six fields. *)
Definition ClearSearchParams : M unit :=
  set_searchParams (SearchParams.mk "" "" "" "" "" "").

(** Assignments to one field of the package-level [searchParams]. *)
Definition set_Number (v : string) : M unit :=
  p ← gets searchParams;
  set_searchParams (SearchParams.mk v (SearchParams.FirstName p)
    (SearchParams.LastName p) (SearchParams.City p) (SearchParams.State p)
    (SearchParams.Organization p)).
Definition set_FirstName (v : string) : M unit :=
  p ← gets searchParams;
  set_searchParams (SearchParams.mk (SearchParams.Number p) v
    (SearchParams.LastName p) (SearchParams.City p) (SearchParams.State p)
    (SearchParams.Organization p)).
Definition set_LastName (v : string) : M unit :=
  p ← gets searchParams;
  set_searchParams (SearchParams.mk (SearchParams.Number p)
    (SearchParams.FirstName p) v (SearchParams.City p) (SearchParams.State p)
    (SearchParams.Organization p)).
Definition set_City (v : string) : M unit :=
  p ← gets searchParams;
  set_searchParams (SearchParams.mk (SearchParams.Number p)
    (SearchParams.FirstName p) (SearchParams.LastName p) v
    (SearchParams.State p) (SearchParams.Organization p)).
Definition set_State (v : string) : M unit :=
  p ← gets searchParams;
  set_searchParams (SearchParams.mk (SearchParams.Number p)
    (SearchParams.FirstName p) (SearchParams.LastName p)
    (SearchParams.City p) v (SearchParams.Organization p)).
Definition set_Organization (v : string) : M unit :=
  p ← gets searchParams;
  set_searchParams (SearchParams.mk (SearchParams.Number p)
    (SearchParams.FirstName p) (SearchParams.LastName p)
    (SearchParams.City p) (SearchParams.State p) v).

(** [ldk.WhisperContentFormInputText] *)
Module FormInput.
Record t := mk {
  Label : string;
  Tooltip : string;
  Order : Z;
  OnChange : string -> M unit;
}.
End FormInput.

(** The user picks the option stored under [key] in the [whisper]-th
    whisper the loop emitted. *)
Record Selection := mkSelection {
  whisper : nat;
  key : string;
}.

(** ** The loop, over an arbitrary host *)

(** What the host answers.
    - [HTTPRequest n url]: the answer of [l.sidekick.Network().HTTPRequest]
      to the [n]-th request of the process, a (possibly nil) response and a
      (possibly nil) error.
    - [Unmarshal data v]: what [json.Unmarshal(data, &v)] leaves in [v], and
      its error.
    - [WhisperErr n]: the error returned by the [n]-th call to the whisper
      service. *)
Record Host := mkHost {
  HTTPRequest : nat -> string -> option HTTPResponse.t * option error;
  Unmarshal : string -> LookupResults.t -> LookupResults.t * option error;
  WhisperErr : nat -> option error;
}.

Section Loop.

Variable host : Host.

Definition http (url : string) : M (option HTTPResponse.t * option error) :=
  fun w => Ok (HTTPRequest host (length (sent w)) url)
             (mkWorld (skip w) (searchParams w) (sent w ++ [url]) (shown w)
                (logged w)).

Definition emit (wh : Whisper) : M (option error) :=
  fun w => Ok (WhisperErr host (length (shown w)))
             (mkWorld (skip w) (searchParams w) (sent w) (shown w ++ [wh])
                (logged w)).

Definition GetLookupResults (searchParams : SearchParams.t) (limit skip : Z)
    : M LookupResults.t :=
  let lookupResults := LookupResults.zero in
  let url := lookup_url searchParams limit skip in
  '(resp, err) ← http url;
  match err with
  | Some e => log (Error "Lookup failed" e)
  | None => ret tt
  end;;
  match resp with
  | None => panic
  | Some resp =>
      let '(lookupResults, err) :=
        Unmarshal host (HTTPResponse.Data resp) lookupResults in
      match err with
      | Some e => log (Error "JSON Unmarshal failed" e)
      | None => ret tt
      end;;
      ret lookupResults
  end.

(** The goroutine started by the [OnChange] of a record's option. *)
Definition OnChange_item (item : NpiInfo.t) : M unit :=
  err ← emit (WList ("Information for " +:+ pretty (NpiInfo.Number item))
                (CreateListElements item));
  match err with
  | Some e => log (Error "failed to emit whisper" e)
  | None => ret tt
  end.

(** The goroutine started by the [OnChange] of [elements["next"]]. *)
Definition OnChange_next : M unit :=
  s ← gets skip;
  set_skip (next_skip s);;
  sp ← gets searchParams;
  s ← gets skip;
  lookupResults ← GetLookupResults sp limit s;
  let elements := CreateDisambiguationElements (LookupResults.Results lookupResults) in
  sp ← gets searchParams;
  err ← emit (WDisambiguation (results_label sp) elements);
  match err with
  | Some e => log (Error "Whisper Disambiguation failed" e)
  | None => ret tt
  end.

(** The goroutine started by the [OnChange] of [elements["prev"]]. *)
Definition OnChange_prev : M unit :=
  s ← gets skip;
  set_skip (prev_skip s);;
  sp ← gets searchParams;
  s ← gets skip;
  lookupResults ← GetLookupResults sp limit s;
  let elements := CreateDisambiguationElements (LookupResults.Results lookupResults) in
  sp ← gets searchParams;
  err ← emit (WDisambiguation (results_label sp) elements);
  match err with
  | Some e => log (Error "Whisper Disambiguation failed" e)
  | None => ret tt
  end.

Definition fire (a : Action) : M unit :=
  match a with
  | ShowDetail item => OnChange_item item
  | NextPage => OnChange_next
  | PrevPage => OnChange_prev
  end.

(** The host delivers a selection to the option's [OnChange]; an option
    that is not in the list cannot be selected. *)
Definition select (s : Selection) : M unit :=
  whispers ← gets shown;
  match whispers !! whisper s with
  | Some (WDisambiguation _ elements) =>
      match elements !! key s with
      | Some o => fire (DOption.OnChange o)
      | None => ret tt
      end
  | _ => ret tt
  end.

(** *** The [OnChange] closures of [CreateFormInputs] *)

Definition OnChange_number (number : string) : M unit :=
  if negb (len number =? 10)%Z && (len number >? 0)%Z then
    err ← emit (WMarkdown "LookupNPI Error" "Npi must be 10 digits");
    match err with
    | Some e => log (Error "failed to emit whisper" e)
    | None => set_Number number
    end
  else set_Number number.

Definition OnChange_firstName (firstName : string) : M unit :=
  set_FirstName (firstName +:+ "*").

Definition OnChange_lastName (lastName : string) : M unit :=
  set_LastName (lastName +:+ "*").

Definition OnChange_organization (organization : string) : M unit :=
  set_Organization (organization +:+ "*").

Definition OnChange_city (city : string) : M unit :=
  set_City (city +:+ "*");;
  sp ← gets searchParams;
  if String.eqb (SearchParams.State sp) "" then
    err ← emit (WMarkdown "LookNPI Error" "Searching by City requires State");
    match err with
    | Some e => log (Error "failed to emit whisper" e)
    | None => ret tt
    end
  else ret tt.

Definition OnChange_state (state : string) : M unit :=
  set_State (state +:+ "*");;
  sp ← gets searchParams;
  if String.eqb (SearchParams.City sp) "" then
    err ← emit (WMarkdown "LookNPI Error" "Searching by State requires City");
    match err with
    | Some e => log (Error "failed to emit whisper" e)
    | None => ret tt
    end
  else ret tt.

Definition CreateFormInputs : gmap string FormInput.t :=
  let inputs : gmap string FormInput.t := ∅ in
  let inputs :=
    <["number" := FormInput.mk "NPI Number" "Exactly 10 digits" 1
        OnChange_number]> inputs in
  let inputs :=
    <["firstName" := FormInput.mk "First Name" "Two Character Minimum" 2
        OnChange_firstName]> inputs in
  let inputs :=
    <["lastName" := FormInput.mk "Last Name" "Two Character Minimum" 3
        OnChange_lastName]> inputs in
  let inputs :=
    <["organization" := FormInput.mk "Organization" "Two Character Minimum" 4
        OnChange_organization]> inputs in
  let inputs :=
    <["city" := FormInput.mk "City" "Two Character Minimum" 5
        OnChange_city]> inputs in
  let inputs :=
    <["state" := FormInput.mk "State" "2 Characters (Other criteria required)" 6
        OnChange_state]> inputs in
  inputs.

(** The user changes the input stored under [name] to [value]. *)
Definition edit (inputs : gmap string FormInput.t) (e : string * string)
    : M unit :=
  match inputs !! e.1 with
  | Some input => FormInput.OnChange input e.2
  | None => ret tt
  end.

(** [l.sidekick.Whisper().Form]: shows the form, delivers the user's edits
    to the inputs and returns whether the form was submitted. *)
Definition Form (label markdown cancelLabel submitLabel : string)
    (inputs : gmap string FormInput.t) (edits : list (string * string))
    (isSubmitted : bool) : M (bool * option error) :=
  err ← emit (WForm label markdown cancelLabel submitLabel);
  forM_ edits (edit inputs);;
  ret (isSubmitted, err).

(** [l.sidekick.Whisper().Disambiguation]: shows the list and delivers the
    selections made before the call returns. *)
Definition Disambiguation (label : string) (elements : gmap string DOption.t)
    (during : list Selection) : M (option error) :=
  err ← emit (WDisambiguation label elements);
  forM_ during select;;
  ret err.

(** [run]: [edits] and [isSubmitted] are what the user does to the form,
    [during] the selections delivered while the call that shows the first
    page has not returned. *)
Definition run (edits : list (string * string)) (isSubmitted : bool)
    (during : list Selection) : M unit :=
  ClearSearchParams;;
  '(isSubmitted, err) ← (Form "NPI Lookup" "Enter Search Criteria" "Cancel"
                           "Search" CreateFormInputs edits isSubmitted
                         : M (bool * option error));
  match err with
  | Some e => log (Error "Form Whisper failed" e)
  | None => ret tt
  end;;
  sp ← gets searchParams;
  lookupResults ← GetLookupResults (RemoveSpaces sp) limit 0;
  let elements := CreateDisambiguationElements (LookupResults.Results lookupResults) in
  (if (isSubmitted : bool) return M unit then
     sp ← gets searchParams;
     Disambiguation (results_label sp) elements during;;
     ret tt
   else ret tt);;
  ClearSearchParams.

(** The callback [LoopStart] registers with [ListenSearchbar]. *)
Definition searchbar (text : string) (err : option error)
    (edits : list (string * string)) (isSubmitted : bool)
    (during : list Selection) : M unit :=
  log (Info "loop callback called");;
  match err with
  | Some e => log (Error "received error from callback" e)
  | None =>
      if (String.eqb text "NPI" || String.eqb text "npi")%bool
      then run edits isSubmitted during
      else ret tt
  end.

(** What happens to the loop after [LoopStart]: the search bar fires, or
    the user selects an option of a list left on screen. *)
Inductive Event :=
  | Searchbar (text : string) (err : option error)
      (edits : list (string * string)) (isSubmitted : bool)
      (during : list Selection)
  | Select (s : Selection).

Definition handle (e : Event) : M unit :=
  match e with
  | Searchbar text err edits isSubmitted during =>
      searchbar text err edits isSubmitted during
  | Select s => select s
  end.

Definition session (events : list Event) : M unit := forM_ events handle.

End Loop.

(** ** Vocabulary of the statements *)

(** The field of the query that the form input [name] writes. *)
Definition field (name : string) (p : SearchParams.t) : string :=
  if String.eqb name "number" then SearchParams.Number p
  else if String.eqb name "firstName" then SearchParams.FirstName p
  else if String.eqb name "lastName" then SearchParams.LastName p
  else if String.eqb name "organization" then SearchParams.Organization p
  else if String.eqb name "city" then SearchParams.City p
  else if String.eqb name "state" then SearchParams.State p
  else "".

Definition free_text : list string :=
  ["firstName"; "lastName"; "organization"; "city"; "state"].

Fixpoint has_space (s : string) : bool :=
  match s with
  | EmptyString => false
  | String c rest => Ascii.eqb c " " || has_space rest
  end.

Fixpoint last_byte (s : string) : option ascii :=
  match s with
  | EmptyString => None
  | String c EmptyString => Some c
  | String _ rest => last_byte rest
  end.

(** The world in which the user starts typing. *)
Definition form_opened (w : World) : World :=
  mkWorld (skip w) SearchParams.zero (sent w)
    (shown w ++ [WForm "NPI Lookup" "Enter Search Criteria" "Cancel" "Search"])
    (logged w).

(** The world in which [run] finds itself when the form closes: the query
    was cleared, the form shown and the user's edits delivered. *)
Definition form_world (host : Host) (edits : list (string * string))
    (isSubmitted : bool) (w : World) : World :=
  world_of
    ((ClearSearchParams;;
      Form host "NPI Lookup" "Enter Search Criteria" "Cancel" "Search"
        (CreateFormInputs host) edits isSubmitted) w).

(** A warning about the NPI number among the whispers. *)
Definition is_number_warning (wh : Whisper) : bool :=
  match wh with
  | WMarkdown label markdown =>
      String.eqb label "LookupNPI Error" && String.eqb markdown "Npi must be 10 digits"
  | _ => false
  end.

Definition is_disambiguation (wh : Whisper) : bool :=
  match wh with
  | WDisambiguation _ _ => true
  | _ => false
  end.

(** The cursor after a sequence of navigation actions. *)
Inductive Nav := Next | Prev.

Definition nav_skip (skip : Z) (n : Nav) : Z :=
  match n with
  | Next => next_skip skip
  | Prev => prev_skip skip
  end.

Definition navigate (skip : Z) (l : list Nav) : Z := fold_left nav_skip l skip.

(** [steps R m]: running [m] takes every world to an [R]-related one,
    whether it returns or panics. *)
Definition steps (R : World -> World -> Prop) {A} (m : M A) : Prop :=
  forall w, R w (world_of (m w)).

(** The journal of requests only grows. *)
Definition more_sent (w w' : World) : Prop :=
  exists l, sent w' = (sent w ++ l)%list.

(** The cursor and the journal of requests are left alone. *)
Definition same_cursor (w w' : World) : Prop :=
  skip w' = skip w /\ sent w' = sent w.

(** Only the journals change: the package-level variables are left alone. *)
Definition same_vars (w w' : World) : Prop :=
  skip w' = skip w /\ searchParams w' = searchParams w.

(** Whispers satisfying [P] are all that is emitted. *)
Definition keeps_shown (P : Whisper -> Prop) (w w' : World) : Prop :=
  Forall P (shown w) -> Forall P (shown w').

(** A choice list built by [CreateDisambiguationElements]. *)
Definition from_page (wh : Whisper) : Prop :=
  match wh with
  | WDisambiguation _ elements =>
      exists results, elements = CreateDisambiguationElements results
  | _ => True
  end.

Definition never_panics {A} (m : M A) : Prop :=
  forall w, panicked (m w) = false.

(** ** Hosts used in the examples *)

Definition provider (n : nat) : NpiInfo.t :=
  NpiInfo.mk (1000000000 + Z.of_nat n) (Basic.mk "JOHN" "SMITH" "") "NPI-1" [] [] [].

Definition full_page : list NpiInfo.t := map provider (seq 0 20).

(** A registry that always answers with a full page. *)
Definition net_ok (n : nat) (url : string)
    : option HTTPResponse.t * option error :=
  (Some (HTTPResponse.mk 200 "{}"), None).
Definition decode_full (data : string) (v : LookupResults.t)
    : LookupResults.t * option error :=
  (LookupResults.mk 20 full_page, None).
Definition whisper_ok (n : nat) : option error := None.

(** A registry whose answer does not decode. *)
Definition net_garbled (n : nat) (url : string)
    : option HTTPResponse.t * option error :=
  (Some (HTTPResponse.mk 502 "Bad Gateway"), None).
Definition decode_fails (data : string) (v : LookupResults.t)
    : LookupResults.t * option error :=
  (v, Some "invalid character 'B' looking for beginning of value").

(** A transport that fails and still hands back a response object. *)
Definition net_down (n : nat) (url : string)
    : option HTTPResponse.t * option error :=
  (Some (HTTPResponse.mk 0 ""), Some "connection refused").

(** A whisper service whose calls all time out. *)
Definition whisper_times_out (n : nat) : option error :=
  Some "context deadline exceeded".

Definition registry : Host := mkHost net_ok decode_full whisper_ok.
Definition garbled : Host := mkHost net_garbled decode_fails whisper_ok.
Definition offline : Host := mkHost net_down decode_fails whisper_ok.
Definition impatient : Host := mkHost net_ok decode_full whisper_times_out.

(** ** Vocabulary of the further properties *)

(** One line of [CreateAddressStrings], numbered [i]. *)
Definition address_line (i : Z) (address : Address.t) : string :=
  pretty i +:+ ") " +:+ Address.City address
  +:+ ", " +:+ Address.State address
  +:+ " " +:+ Address.PostalCode address
  +:+ " " +:+ Address.Country address +:+ nl.

(** One line of [CreateTaxonomyStrings], numbered [i]. *)
Definition taxonomy_line (i : Z) (tax : Taxonomy.t) : string :=
  pretty i +:+ ") Primary:" +:+ pretty_bool (Taxonomy.Primary tax)
  +:+ "  Code:" +:+ Taxonomy.Code tax
  +:+ " Description:" +:+ Taxonomy.Description tax
  +:+ " State:" +:+ Taxonomy.State tax
  +:+ " License:" +:+ Taxonomy.License tax +:+ nl.

(** The lines of a list, the first one numbered [i + 1]. *)
Fixpoint lines_from {A} (line : Z -> A -> string) (i : Z) (l : list A) : string :=
  match l with
  | [] => ""
  | a :: rest => line (i + 1)%Z a +:+ lines_from line (i + 1) rest
  end.

(** The pair [CreateListElements] stores for an alternate name. *)
Definition other_name_pair (name : OtherName.t) : Pair.t :=
  Pair.mk (OtherName.Type_ name) 4
    (OtherName.Prefix name +:+ " " +:+ OtherName.FirstName name
     +:+ " " +:+ OtherName.LastName name
     +:+ " " +:+ OtherName.Organization name).

(** A request for a page of [limit] records. *)
Definition is_lookup (url : string) : Prop :=
  exists sp s, url = lookup_url sp limit s.

(** Requests satisfying [P] are all that is sent. *)
Definition keeps_sent (P : string -> Prop) (w w' : World) : Prop :=
  Forall P (sent w) -> Forall P (sent w').

(** The cursor moved by navigation actions only, each of which cost a
    request. *)
Definition navigated (w w' : World) : Prop :=
  exists l : list Nav,
    skip w' = navigate (skip w) l
    /\ (length (sent w) + length l <= length (sent w'))%nat.

(** Two worlds the form cannot tell apart: the same query and as many
    whispers emitted so far. *)
Definition same_form_state (w1 w2 : World) : Prop :=
  searchParams w1 = searchParams w2 /\ length (shown w1) = length (shown w2).

(** The query with its city and state replaced. *)
Definition with_city_state (p : SearchParams.t) (city state : string)
    : SearchParams.t :=
  SearchParams.mk (SearchParams.Number p) (SearchParams.FirstName p)
    (SearchParams.LastName p) city state (SearchParams.Organization p).

(** The shape shared by the loops of [CreateDisambiguationElements] and
    [CreateListElements]: the [n]-th element of the list is stored under the
    decimal key [i + n]. *)
Fixpoint keyed_from {A V} (f : Z -> A -> V) (i : Z) (l : list A)
    (m : gmap string V) : gmap string V :=
  match l with
  | [] => m
  | a :: rest => keyed_from f (i + 1) rest (<[pretty i := f i a]> m)
  end.

(** A warning: a markdown whisper. *)
Definition is_warning (wh : Whisper) : Prop :=
  match wh with
  | WMarkdown _ _ => True
  | _ => False
  end.

(** * Properties *)

(** ** The monad *)

Lemma world_of_bind {A B} (m : M A) (k : A -> M B) w :
  world_of ((m ≫= k) w) =
  match m w with
  | Ok a w' => world_of (k a w')
  | Panic w' => w'
  end.
Proof.
  unfold mbind, M_bind, bind. destruct (m w); reflexivity.
Qed.

Section Steps.
Context (R : World -> World -> Prop) `{!PreOrder R}.

Lemma steps_ret {A} (a : A) : steps R (ret a).
Proof. intros w. simpl. reflexivity. Qed.

Lemma steps_panic {A} : steps R (panic : M A).
Proof. intros w. simpl. reflexivity. Qed.

Lemma steps_gets {A} (f : World -> A) : steps R (gets f).
Proof. intros w. simpl. reflexivity. Qed.

Lemma steps_bind {A B} (m : M A) (k : A -> M B) :
  steps R m -> (forall a, steps R (k a)) -> steps R (m ≫= k).
Proof.
  intros Hm Hk w. rewrite world_of_bind.
  specialize (Hm w). destruct (m w) as [a w'|w']; simpl in Hm.
  - etransitivity; [exact Hm | apply Hk].
  - exact Hm.
Qed.

Lemma steps_forM_ {A} (l : list A) (f : A -> M unit) :
  (forall a, steps R (f a)) -> steps R (forM_ l f).
Proof.
  intros Hf. induction l as [|a l IH]; simpl.
  - apply (steps_ret tt).
  - apply steps_bind; [apply Hf | intros _; exact IH].
Qed.
End Steps.

#[global] Instance more_sent_preorder : PreOrder more_sent.
Proof.
  split.
  - intros w. exists []. by rewrite app_nil_r.
  - intros w1 w2 w3 [l1 H1] [l2 H2]. exists (l1 ++ l2)%list.
    by rewrite H2, H1, app_assoc.
Qed.

#[global] Instance same_cursor_preorder : PreOrder same_cursor.
Proof.
  split.
  - intros w. by split.
  - intros w1 w2 w3 [H1 H1'] [H2 H2']. split; congruence.
Qed.

#[global] Instance same_vars_preorder : PreOrder same_vars.
Proof.
  split.
  - intros w. by split.
  - intros w1 w2 w3 [H1 H1'] [H2 H2']. split; congruence.
Qed.

#[global] Instance keeps_shown_preorder P : PreOrder (keeps_shown P).
Proof.
  split.
  - intros w H. exact H.
  - intros w1 w2 w3 H1 H2 H. apply H2, H1, H.
Qed.

Lemma bind_ok {A B} (m : M A) (k : A -> M B) w a w' :
  m w = Ok a w' -> (m ≫= k) w = k a w'.
Proof. intros H. unfold mbind, M_bind, bind. by rewrite H. Qed.

Lemma bind_panic {A B} (m : M A) (k : A -> M B) w w' :
  m w = Panic w' -> (m ≫= k) w = Panic w'.
Proof. intros H. unfold mbind, M_bind, bind. by rewrite H. Qed.

Lemma never_panics_ok (m : M unit) w :
  never_panics m -> m w = Ok tt (world_of (m w)).
Proof.
  intros H. specialize (H w). destruct (m w) as [[] w'|w']; simpl in *; done.
Qed.

Lemma never_panics_bind {A B} (m : M A) (k : A -> M B) :
  never_panics m -> (forall a, never_panics (k a)) -> never_panics (m ≫= k).
Proof.
  intros Hm Hk w. unfold mbind, M_bind, bind.
  specialize (Hm w). destruct (m w) as [a w'|w']; simpl in *; [apply Hk | done].
Qed.

Lemma never_panics_forM_ {A} (l : list A) (f : A -> M unit) :
  (forall a, never_panics (f a)) -> never_panics (forM_ l f).
Proof.
  intros Hf. induction l as [|a l IH]; simpl; [done|].
  apply never_panics_bind; [apply Hf | intros _; exact IH].
Qed.

(** ** Decimal keys never collide with the navigation keys *)

Lemma pretty_N_go_head (c : ascii) (x : N) (s s' : string) :
  (forall d, pretty_N_char d <> c) ->
  s <> String c s' -> pretty_N_go x s <> String c s'.
Proof.
  intros Hc. revert s.
  induction (N.lt_wf_0 x) as [x _ IH]; intros s Hs.
  destruct (decide (x = 0%N)) as [->|Hx].
  - by rewrite pretty_N_go_0.
  - rewrite pretty_N_go_step by lia. apply IH.
    + apply N.div_lt; lia.
    + intros Heq. injection Heq as Heq _. by apply (Hc _ Heq).
Qed.

Lemma pretty_Z_head (c : ascii) (z : Z) (s' : string) :
  (forall d, pretty_N_char d <> c) -> c <> "-"%char ->
  pretty z <> String c s'.
Proof.
  intros Hc Hdash. destruct z as [|p|p]; unfold pretty, pretty_Z.
  - intros Heq. injection Heq as Heq _. by apply (Hc 0%N).
  - unfold pretty, pretty_positive, pretty, pretty_N.
    rewrite decide_False by done. by apply pretty_N_go_head.
  - simpl. intros Heq. injection Heq as Heq _. by apply Hdash.
Qed.

Lemma digit_not_n d : pretty_N_char d <> "n"%char.
Proof. unfold pretty_N_char. by repeat case_match. Qed.

Lemma digit_not_p d : pretty_N_char d <> "p"%char.
Proof. unfold pretty_N_char. by repeat case_match. Qed.

Lemma pretty_not_next (z : Z) : pretty z <> "next".
Proof. by apply pretty_Z_head; [apply digit_not_n|]. Qed.

Lemma pretty_not_prev (z : Z) : pretty z <> "prev".
Proof. by apply pretty_Z_head; [apply digit_not_p|]. Qed.

(** ** The loop over the records of a page *)

Lemma item_options_from_other (rs : list NpiInfo.t) :
  forall (i : Z) (m : gmap string DOption.t) (k : string),
  (forall j : Z, pretty j <> k) ->
  item_options_from i rs m !! k = m !! k.
Proof.
  induction rs as [|item rs IH]; intros i m k Hk; simpl; [done|].
  rewrite IH by done. by rewrite lookup_insert_ne.
Qed.

Lemma item_options_from_below (rs : list NpiInfo.t) :
  forall (i j : Z) (m : gmap string DOption.t),
  (j < i)%Z ->
  item_options_from i rs m !! pretty j = m !! pretty j.
Proof.
  induction rs as [|item rs IH]; intros i j m Hj; simpl; [done|].
  rewrite IH by lia. rewrite lookup_insert_ne; [done|].
  intros Heq. apply (inj pretty) in Heq. lia.
Qed.

Lemma item_options_from_lookup (rs : list NpiInfo.t) :
  forall (i : Z) (m : gmap string DOption.t) (n : nat) (item : NpiInfo.t),
  rs !! n = Some item ->
  item_options_from i rs m !! pretty (i + Z.of_nat n)%Z
  = Some (item_option (i + Z.of_nat n) item).
Proof.
  induction rs as [|r rs IH]; intros i m n item Hn; [done|].
  destruct n as [|n]; cbn [item_options_from].
  - injection Hn as ->. rewrite Z.add_0_r.
    rewrite item_options_from_below by lia. by rewrite lookup_insert_eq.
  - replace (i + Z.of_nat (S n))%Z with (i + 1 + Z.of_nat n)%Z by lia.
    exact (IH (i + 1)%Z _ n item Hn).
Qed.

Lemma item_options_from_none (rs : list NpiInfo.t) :
  forall (i j : Z) (m : gmap string DOption.t),
  (i + Z.of_nat (length rs) <= j)%Z ->
  item_options_from i rs m !! pretty j = m !! pretty j.
Proof.
  induction rs as [|item rs IH]; intros i j m Hj; simpl in *; [done|].
  rewrite IH by lia. rewrite lookup_insert_ne; [done|].
  intros Heq. apply (inj pretty) in Heq. lia.
Qed.

(** ** Arithmetic of the cursor *)

Lemma wrap_small (z : Z) : (min_int <= z <= max_int)%Z -> wrap z = z.
Proof.
  unfold wrap, min_int, max_int. intros H.
  rewrite Z.mod_small; lia.
Qed.

Lemma next_skip_small (s : Z) :
  (0 <= s)%Z -> (s + limit <= max_int)%Z -> next_skip s = (s + limit)%Z.
Proof.
  intros H0 H1. unfold next_skip. apply wrap_small.
  unfold min_int, max_int, limit in *. lia.
Qed.

Lemma prev_skip_small (s : Z) :
  (0 <= s <= max_int)%Z -> (limit | s)%Z ->
  prev_skip s = Z.max 0 (s - limit).
Proof.
  intros Hs [k Hk]. unfold prev_skip.
  destruct (Z.eqb_spec s 0) as [->|Hne]; simpl; [reflexivity|].
  rewrite wrap_small; unfold min_int, max_int, limit in *; lia.
Qed.

Lemma prev_next_skip (s : Z) :
  (0 <= s <= max_int)%Z -> prev_skip (next_skip s) = s.
Proof.
  intros Hs. unfold prev_skip, next_skip, wrap, limit, max_int in *.
  change (2 ^ 63)%Z with 9223372036854775808%Z in *.
  change (2 ^ 64)%Z with 18446744073709551616%Z in *.
  destruct (Z.eqb_spec
    ((s + 20 + 9223372036854775808) mod 18446744073709551616
      - 9223372036854775808) 0) as [Heq|Hne]; simpl.
  - exfalso. revert Heq. Z.div_mod_to_equations. lia.
  - Z.div_mod_to_equations. lia.
Qed.

Lemma navigate_bounds (l : list Nav) :
  forall s : Z,
  (0 <= s)%Z -> (limit | s)%Z ->
  (s + limit * Z.of_nat (length l) <= max_int)%Z ->
  (0 <= navigate s l <= s + limit * Z.of_nat (length l))%Z
  /\ (limit | navigate s l)%Z.
Proof.
  unfold navigate.
  induction l as [|n l IH]; intros s H0 Hd Hmax; simpl in *.
  - split; [lia | done].
  - assert (0 <= nav_skip s n <= s + limit
            /\ (limit | nav_skip s n))%Z as [Hb Hd'].
    { destruct n; simpl.
      - rewrite next_skip_small by (unfold limit in *; lia).
        split; [unfold limit; lia|]. by apply Z.divide_add_r.
      - rewrite prev_skip_small by (unfold limit in *; done || lia).
        split; [unfold limit; lia|].
        destruct Hd as [k Hk]. destruct (decide (s = 0)) as [->|Hne].
        + exists 0. unfold limit. lia.
        + exists (k - 1)%Z. unfold limit in *. lia. }
    destruct (IH (nav_skip s n)) as [IH1 IH2]; [lia | done | lia |].
    split; [lia | done].
Qed.

(** ** What each function of the loop does to the world *)

Ltac steps_step :=
  first
    [ apply steps_ret; solve [apply _]
    | apply steps_panic; solve [apply _]
    | apply steps_gets; solve [apply _]
    | apply steps_bind; [apply _ | | intros ?]
    | apply steps_forM_; [apply _ | intros ?]
    | match goal with
      | |- steps _ (match ?x with _ => _ end) => destruct x
      end ].

Section HostFacts.

Variable host : Host.

(** *** The journal of requests only grows *)

Lemma more_sent_modify f :
  (forall w, sent (f w) = sent w) -> steps more_sent (modify f).
Proof. intros H w. exists []. simpl. by rewrite H, app_nil_r. Qed.

Lemma more_sent_http url : steps more_sent (http host url).
Proof. intros w. by exists [url]. Qed.

Lemma more_sent_emit wh : steps more_sent (emit host wh).
Proof. intros w. exists []. simpl. by rewrite app_nil_r. Qed.

Ltac more_sent_step :=
  first
    [ apply more_sent_http
    | apply more_sent_emit
    | apply more_sent_modify; reflexivity
    | steps_step ].

Lemma more_sent_GetLookupResults sp l s :
  steps more_sent (GetLookupResults host sp l s).
Proof. unfold GetLookupResults, log. repeat more_sent_step. Qed.

Lemma more_sent_fire a : steps more_sent (fire host a).
Proof.
  destruct a; simpl;
    unfold OnChange_item, OnChange_next,
      OnChange_prev, set_skip, log;
    repeat first [apply more_sent_GetLookupResults | more_sent_step].
Qed.

Lemma more_sent_select s : steps more_sent (select host s).
Proof.
  unfold select. repeat first [apply more_sent_fire | more_sent_step].
Qed.

(** *** The form never touches the cursor, the network or the process *)

Lemma same_cursor_modify f :
  (forall w, skip (f w) = skip w) -> (forall w, sent (f w) = sent w) ->
  steps same_cursor (modify f).
Proof. intros H1 H2 w. split; simpl; [apply H1 | apply H2]. Qed.

Lemma same_cursor_emit wh : steps same_cursor (emit host wh).
Proof. intros w. by split. Qed.

Ltac same_cursor_step :=
  first
    [ apply same_cursor_emit
    | apply same_cursor_modify; reflexivity
    | steps_step ].

Lemma CreateFormInputs_lookup name input :
  CreateFormInputs host !! name = Some input ->
  FormInput.OnChange input = OnChange_number host /\ name = "number"
  \/ FormInput.OnChange input = OnChange_firstName /\ name = "firstName"
  \/ FormInput.OnChange input = OnChange_lastName /\ name = "lastName"
  \/ FormInput.OnChange input = OnChange_organization /\ name = "organization"
  \/ FormInput.OnChange input = OnChange_city host /\ name = "city"
  \/ FormInput.OnChange input = OnChange_state host /\ name = "state".
Proof.
  unfold CreateFormInputs. cbv zeta. intros H.
  repeat (rewrite lookup_insert in H; case_decide;
          [injection H as <-; subst name; simpl; intuition congruence|]).
  by rewrite lookup_empty in H.
Qed.

Lemma same_cursor_edit e : steps same_cursor (edit (CreateFormInputs host) e).
Proof.
  unfold edit. destruct (CreateFormInputs host !! e.1) as [input|] eqn:Hin.
  - apply CreateFormInputs_lookup in Hin.
    destruct Hin as [[-> _]|[[-> _]|[[-> _]|[[-> _]|[[-> _]|[-> _]]]]]];
      unfold OnChange_number, OnChange_firstName, OnChange_lastName,
        OnChange_organization, OnChange_city, OnChange_state,
        set_Number, set_FirstName, set_LastName, set_Organization,
        set_City, set_State, set_searchParams, log;
      repeat same_cursor_step.
  - apply steps_ret; apply _.
Qed.

Lemma never_panics_edit e : never_panics (edit (CreateFormInputs host) e).
Proof.
  unfold edit. destruct (CreateFormInputs host !! e.1) as [input|] eqn:Hin;
    [|done].
  apply CreateFormInputs_lookup in Hin.
  destruct Hin as [[-> _]|[[-> _]|[[-> _]|[[-> _]|[[-> _]|[-> _]]]]]];
    unfold OnChange_number, OnChange_firstName, OnChange_lastName,
      OnChange_organization, OnChange_city, OnChange_state,
      set_Number, set_FirstName, set_LastName, set_Organization,
      set_City, set_State, set_searchParams, log;
    repeat first
      [ apply never_panics_bind; [| intros ?]
      | match goal with
        | |- never_panics (match ?x with _ => _ end) => destruct x
        end
      | done ].
Qed.

(** *** Every choice list on screen was built from a page *)

Lemma keeps_modify P f :
  (forall w, shown (f w) = shown w) -> steps (keeps_shown P) (modify f).
Proof. intros H w Hall. simpl. by rewrite H. Qed.

Lemma keeps_http P url : steps (keeps_shown P) (http host url).
Proof. intros w Hall. exact Hall. Qed.

Lemma keeps_emit (P : Whisper -> Prop) wh :
  P wh -> steps (keeps_shown P) (emit host wh).
Proof.
  intros H w Hall. simpl. apply Forall_app. split; [exact Hall|].
  by constructor.
Qed.

Ltac keeps_step :=
  first
    [ apply keeps_http
    | apply keeps_modify; reflexivity
    | apply keeps_emit; simpl; solve [eauto]
    | steps_step ].

Lemma keeps_GetLookupResults P sp l s :
  steps (keeps_shown P) (GetLookupResults host sp l s).
Proof. unfold GetLookupResults, log. repeat keeps_step. Qed.

Lemma keeps_fire a : steps (keeps_shown from_page) (fire host a).
Proof.
  destruct a; simpl;
    unfold OnChange_item, OnChange_next, OnChange_prev, set_skip, log;
    repeat first [apply keeps_GetLookupResults | keeps_step].
Qed.

Lemma keeps_select s : steps (keeps_shown from_page) (select host s).
Proof. unfold select. repeat first [apply keeps_fire | keeps_step]. Qed.

Lemma keeps_edit e :
  steps (keeps_shown from_page) (edit (CreateFormInputs host) e).
Proof.
  unfold edit. destruct (CreateFormInputs host !! e.1) as [input|] eqn:Hin.
  - apply CreateFormInputs_lookup in Hin.
    destruct Hin as [[-> _]|[[-> _]|[[-> _]|[[-> _]|[[-> _]|[-> _]]]]]];
      unfold OnChange_number, OnChange_firstName, OnChange_lastName,
        OnChange_organization, OnChange_city, OnChange_state,
        set_Number, set_FirstName, set_LastName, set_Organization,
        set_City, set_State, set_searchParams, log;
      repeat keeps_step.
  - apply steps_ret; apply _.
Qed.

Lemma keeps_run edits isSubmitted during :
  steps (keeps_shown from_page) (run host edits isSubmitted during).
Proof.
  unfold run, Form, Disambiguation, ClearSearchParams, set_searchParams, log.
  repeat first
    [ apply keeps_edit | apply keeps_select | apply keeps_GetLookupResults
    | keeps_step ].
Qed.

Lemma keeps_session events :
  steps (keeps_shown from_page) (session host events).
Proof.
  unfold session. apply steps_forM_; [apply _|]. intros [text err edits b during|s]; simpl.
  - unfold searchbar, log. repeat first [apply keeps_run | keeps_step].
  - apply keeps_select.
Qed.

(** *** The lookup and the two navigation closures *)

Ltac run_out :=
  unfold GetLookupResults, http, emit, log, set_skip, set_searchParams,
    ClearSearchParams, mbind, M_bind, bind, gets, modify, ret, panic;
  simpl;
  repeat (case_match; simpl in *; simplify_eq); simpl.

Lemma GetLookupResults_world sp l s w :
  skip (world_of (GetLookupResults host sp l s w)) = skip w
  /\ searchParams (world_of (GetLookupResults host sp l s w)) = searchParams w
  /\ sent (world_of (GetLookupResults host sp l s w))
     = (sent w ++ [lookup_url sp l s])%list
  /\ shown (world_of (GetLookupResults host sp l s w)) = shown w.
Proof. run_out; done. Qed.

Lemma GetLookupResults_response sp l s w resp err :
  HTTPRequest host (length (sent w)) (lookup_url sp l s) = (Some resp, err) ->
  GetLookupResults host sp l s w
  = Ok (Unmarshal host (HTTPResponse.Data resp) LookupResults.zero).1
      (mkWorld (skip w) (searchParams w)
         (sent w ++ [lookup_url sp l s])%list (shown w)
         (logged w
          ++ match err with
             | Some e => [Error "Lookup failed" e]
             | None => []
             end
          ++ match (Unmarshal host (HTTPResponse.Data resp)
                      LookupResults.zero).2 with
             | Some e => [Error "JSON Unmarshal failed" e]
             | None => []
             end)%list).
Proof.
  intros H. run_out; rewrite ?app_nil_r, <- ?app_assoc; try done.
Qed.

Lemma GetLookupResults_nil sp l s w err :
  HTTPRequest host (length (sent w)) (lookup_url sp l s) = (None, err) ->
  panicked (GetLookupResults host sp l s w) = true.
Proof. intros H. run_out; done. Qed.

Lemma OnChange_next_world w :
  skip (world_of (OnChange_next host w)) = next_skip (skip w)
  /\ searchParams (world_of (OnChange_next host w)) = searchParams w
  /\ sent (world_of (OnChange_next host w))
     = (sent w ++ [lookup_url (searchParams w) limit (next_skip (skip w))])%list.
Proof. unfold OnChange_next. run_out; done. Qed.

Lemma OnChange_prev_world w :
  skip (world_of (OnChange_prev host w)) = prev_skip (skip w)
  /\ searchParams (world_of (OnChange_prev host w)) = searchParams w
  /\ sent (world_of (OnChange_prev host w))
     = (sent w ++ [lookup_url (searchParams w) limit (prev_skip (skip w))])%list.
Proof. unfold OnChange_prev. run_out; done. Qed.

Lemma OnChange_item_world item w :
  skip (world_of (OnChange_item host item w)) = skip w
  /\ searchParams (world_of (OnChange_item host item w)) = searchParams w
  /\ sent (world_of (OnChange_item host item w)) = sent w.
Proof. unfold OnChange_item. run_out; done. Qed.

(** *** [run] *)

Lemma Form_ok label markdown cancelLabel submitLabel edits isSubmitted w :
  Form host label markdown cancelLabel submitLabel (CreateFormInputs host)
    edits isSubmitted w
  = Ok (isSubmitted, WhisperErr host (length (shown w)))
      (world_of (Form host label markdown cancelLabel submitLabel
                   (CreateFormInputs host) edits isSubmitted w)).
Proof.
  unfold Form, emit, mbind, M_bind, bind. simpl.
  pose proof (never_panics_forM_ edits (edit (CreateFormInputs host))
                never_panics_edit
                (mkWorld (skip w) (searchParams w) (sent w)
                   (shown w ++ [WForm label markdown cancelLabel submitLabel])
                   (logged w))) as Hnp.
  destruct (forM_ edits _ _) as [[] w'|w']; simpl in *; done.
Qed.

Lemma form_world_cursor edits isSubmitted w :
  skip (form_world host edits isSubmitted w) = skip w
  /\ sent (form_world host edits isSubmitted w) = sent w.
Proof.
  unfold form_world.
  assert (steps same_cursor
            (ClearSearchParams;;
             Form host "NPI Lookup" "Enter Search Criteria" "Cancel" "Search"
               (CreateFormInputs host) edits isSubmitted)) as H.
  { unfold ClearSearchParams, set_searchParams, Form.
    repeat first [apply same_cursor_edit | same_cursor_step]. }
  exact (H w).
Qed.

(** Runs [run] up to its call of [GetLookupResults]; the world there is
    [form_world], with one more line in the log when the form failed. *)
Ltac run_to_lookup w :=
  unfold run;
  rewrite (bind_ok ClearSearchParams _ w tt _ eq_refl);
  rewrite (bind_ok _ _ _ _ _ (Form_ok _ _ _ _ _ _ _));
  match goal with
  | |- context [world_of (Form ?h ?a ?b ?c ?d ?i ?e ?s ?w0)] =>
      change (world_of (Form h a b c d i e s w0)) with (form_world h e s w);
      change (shown w0) with (shown w)
  end.

Lemma run_lookup edits isSubmitted during w :
  exists w2,
    (skip w2 = skip w /\ sent w2 = sent w
     /\ searchParams w2 = searchParams (form_world host edits isSubmitted w)
     /\ shown w2 = shown (form_world host edits isSubmitted w))
    /\ run host edits isSubmitted during w
       = (lookupResults ← GetLookupResults host
                            (RemoveSpaces (searchParams w2)) limit 0;
          (if isSubmitted return M unit then
             sp ← gets searchParams;
             Disambiguation host (results_label sp)
               (CreateDisambiguationElements
                  (LookupResults.Results lookupResults)) during;;
             ret tt
           else ret tt);;
          ClearSearchParams) w2.
Proof.
  destruct (form_world_cursor edits isSubmitted w) as [Hskip Hsent].
  run_to_lookup w.
  destruct (WhisperErr host (length (shown w))) as [e|];
    erewrite bind_ok by reflexivity; erewrite bind_ok by reflexivity;
    eexists; (split; [|reflexivity]); simpl; done.
Qed.

(** The first request of [run] carries the query of the form, spaces
    replaced, at offset 0; a cancelled form sends it all the same, and
    nothing else. *)
Lemma run_sent edits isSubmitted during w :
  exists l,
    sent (world_of (run host edits isSubmitted during w))
    = (sent w
       ++ lookup_url
            (RemoveSpaces (searchParams (form_world host edits isSubmitted w)))
            limit 0 :: l)%list
    /\ (isSubmitted = false -> l = []).
Proof.
  destruct (run_lookup edits isSubmitted during w)
    as (w2 & (Hskip & Hsent & Hsp & Hshown) & ->).
  rewrite world_of_bind.
  destruct (GetLookupResults_world (RemoveSpaces (searchParams w2)) limit 0 w2)
    as (_ & _ & HG & _).
  destruct (GetLookupResults host (RemoveSpaces (searchParams w2)) limit 0 w2)
    as [lr w3|w3]; simpl in HG; rewrite Hsp, Hsent in HG.
  - rewrite world_of_bind. destruct isSubmitted.
    + assert (steps more_sent
                (sp ← gets searchParams;
                 Disambiguation host (results_label sp)
                   (CreateDisambiguationElements (LookupResults.Results lr))
                   during;;
                 ret tt)) as Hmore.
      { unfold Disambiguation.
        repeat first [apply more_sent_select | more_sent_step]. }
      destruct (Hmore w3) as [l Hl]. exists l.
      split; [|done].
      match type of Hl with
      | sent (world_of ?r) = _ =>
          destruct r as [[] w4|w4]; simpl in *;
            rewrite Hl, HG, <- app_assoc; done
      end.
    + exists []. simpl. by rewrite HG.
  - exists []. split; [exact HG | done].
Qed.

(** Without navigation while its list is being shown, [run] leaves the
    cursor as it found it. *)
Lemma run_skip edits isSubmitted w :
  skip (world_of (run host edits isSubmitted [] w)) = skip w.
Proof.
  destruct (run_lookup edits isSubmitted [] w)
    as (w2 & (Hskip & Hsent & Hsp & Hshown) & ->).
  rewrite <- Hskip. unfold Disambiguation. run_out; done.
Qed.

(** When [run] returns, the query is empty. *)
Lemma run_clears edits isSubmitted during w w' :
  run host edits isSubmitted during w = Ok tt w' ->
  searchParams w' = SearchParams.zero.
Proof.
  destruct (run_lookup edits isSubmitted during w) as (w2 & _ & ->).
  unfold mbind at 1, M_bind at 1, bind at 1.
  destruct (GetLookupResults host _ _ _ w2) as [lr w3|w3]; [|done].
  unfold mbind at 1, M_bind at 1, bind at 1.
  match goal with
  | |- match ?r with _ => _ end = _ -> _ => destruct r as [[] w4|w4]; [|done]
  end.
  intros H. injection H as <-. reflexivity.
Qed.

(** A cancelled form shows nothing more than the form left on screen. *)
Lemma run_cancel_shown edits during w :
  shown (world_of (run host edits false during w))
  = shown (form_world host edits false w).
Proof.
  destruct (run_lookup edits false during w)
    as (w2 & (Hskip & Hsent & Hsp & Hshown) & ->).
  rewrite <- Hshown. run_out; done.
Qed.

(** *** The form inputs *)

Lemma forM__cons_world {A} (f : A -> M unit) a l w :
  never_panics (f a) ->
  world_of (forM_ (a :: l) f w) = world_of (forM_ l f (world_of (f a w))).
Proof.
  intros H. simpl. rewrite world_of_bind. by rewrite (never_panics_ok _ _ H).
Qed.

Lemma forM__app_world {A} (f : A -> M unit) l1 l2 w :
  (forall a, never_panics (f a)) ->
  world_of (forM_ (l1 ++ l2) f w)
  = world_of (forM_ l2 f (world_of (forM_ l1 f w))).
Proof.
  intros H. revert w. induction l1 as [|a l1 IH]; intros w; [done|].
  rewrite <- app_comm_cons, !forM__cons_world by done. apply IH.
Qed.

Lemma form_world_edits edits isSubmitted w :
  form_world host edits isSubmitted w
  = world_of (forM_ edits (edit (CreateFormInputs host)) (form_opened w)).
Proof.
  unfold form_world.
  rewrite (bind_ok ClearSearchParams _ w tt _ eq_refl).
  unfold Form. erewrite bind_ok by reflexivity.
  rewrite world_of_bind.
  rewrite (never_panics_ok (forM_ edits (edit (CreateFormInputs host)))).
  2:{ apply never_panics_forM_, never_panics_edit. }
  reflexivity.
Qed.

Ltac each_free_text H :=
  unfold free_text in H;
  repeat (apply elem_of_cons in H as [->|H]);
  [..|by apply elem_of_nil in H].

(** A free-text input stores what was typed, followed by the wildcard. *)
Lemma edit_free_text name raw w :
  name ∈ free_text ->
  field name (searchParams (world_of (edit (CreateFormInputs host) (name, raw) w)))
  = raw +:+ "*".
Proof.
  intros H. each_free_text H;
    unfold edit, CreateFormInputs; simpl; simplify_map_eq; simpl;
    unfold OnChange_firstName, OnChange_lastName, OnChange_organization,
      OnChange_city, OnChange_state, set_FirstName, set_LastName,
      set_Organization, set_City, set_State;
    run_out; done.
Qed.

(** An edit of another input leaves the field alone. *)
Lemma edit_other_field name e w :
  e.1 <> name ->
  field name (searchParams (world_of (edit (CreateFormInputs host) e w)))
  = field name (searchParams w).
Proof.
  intros Hne. unfold edit.
  destruct (CreateFormInputs host !! e.1) as [input|] eqn:Hin; [|done].
  apply CreateFormInputs_lookup in Hin.
  unfold field.
  destruct Hin as [[-> Hn]|[[-> Hn]|[[-> Hn]|[[-> Hn]|[[-> Hn]|[-> Hn]]]]]];
    rewrite Hn in Hne;
    unfold OnChange_number, OnChange_firstName, OnChange_lastName,
      OnChange_organization, OnChange_city, OnChange_state, set_Number,
      set_FirstName, set_LastName, set_Organization, set_City, set_State;
    run_out; try done;
    exfalso;
    match goal with
    | H : String.eqb name _ = true |- _ =>
        apply String.eqb_eq in H; congruence
    end.
Qed.

(** Once written, a free-text field stays non-empty however the form is
    edited afterwards. *)
Lemma edit_keeps_nonempty name e w :
  name ∈ free_text ->
  field name (searchParams w) <> "" ->
  field name (searchParams (world_of (edit (CreateFormInputs host) e w))) <> "".
Proof.
  intros Hin Hne. destruct e as [k v].
  destruct (decide (k = name)) as [->|Hk].
  - rewrite edit_free_text by done. by destruct v.
  - by rewrite edit_other_field.
Qed.

Lemma edits_keep_nonempty name edits :
  name ∈ free_text ->
  forall w,
  field name (searchParams w) <> "" ->
  field name
    (searchParams (world_of (forM_ edits (edit (CreateFormInputs host)) w)))
  <> "".
Proof.
  intros Hin. induction edits as [|e edits IH]; intros w Hne; [done|].
  rewrite forM__cons_world by apply never_panics_edit.
  by apply IH, edit_keeps_nonempty.
Qed.

Lemma edits_other_field name edits :
  (forall e, e ∈ edits -> e.1 <> name) ->
  forall w,
  field name
    (searchParams (world_of (forM_ edits (edit (CreateFormInputs host)) w)))
  = field name (searchParams w).
Proof.
  induction edits as [|e edits IH]; intros Hall w; [done|].
  rewrite forM__cons_world by apply never_panics_edit.
  rewrite IH.
  - apply edit_other_field, Hall. by left.
  - intros e' He'. apply Hall. by right.
Qed.

End HostFacts.

(** ** Strings *)

Lemma ReplaceAll_app (a b : string) (old new : ascii) :
  ReplaceAll (a +:+ b) old new = ReplaceAll a old new +:+ ReplaceAll b old new.
Proof. induction a as [|c a IH]; simpl; [done | by rewrite IH]. Qed.

Lemma has_space_ReplaceAll (s : string) :
  has_space (ReplaceAll s " " "+") = false.
Proof.
  induction s as [|c s IH]; simpl; [done|].
  rewrite IH, orb_false_r.
  destruct (Ascii.eqb_spec c " ") as [->|Hc]; [done|].
  by apply Ascii.eqb_neq.
Qed.

Lemma has_space_star (s : string) : has_space (s +:+ "*") = has_space s.
Proof. induction s as [|c s IH]; simpl; [done | by rewrite IH]. Qed.

Lemma last_byte_star (s : string) : last_byte (s +:+ "*") = Some "*"%char.
Proof.
  induction s as [|c s IH]; simpl; [done|].
  destruct (s +:+ "*") eqn:E; [by destruct s | exact IH].
Qed.

Lemma field_RemoveSpaces (name : string) (p : SearchParams.t) :
  field name (RemoveSpaces p) = ReplaceAll (field name p) " " "+".
Proof.
  unfold field, RemoveSpaces. repeat case_match; done.
Qed.

(** * The claims *)

(** C5. A choice list has the option [next] exactly when its page holds
    [limit] = 20 records, and has the option [prev] whatever the page and
    whatever the offset (the list is a function of the page alone); and every
    choice list a session puts on screen is such a list. *)
Theorem choice_list_navigation_options :
  (forall results : list NpiInfo.t,
     (CreateDisambiguationElements results !! "next"
      = if decide (length results = 20%nat)
        then Some (DOption.mk "Next 20 Results" 21 NextPage)
        else None)
     /\ (is_Some (CreateDisambiguationElements results !! "next")
         <-> length results = 20%nat)
     /\ CreateDisambiguationElements results !! "prev"
        = Some (DOption.mk "Previous 20 Results"
                  (uint32 (uint32 (Z.of_nat (length results)) + 1)) PrevPage))
  /\ (forall (host : Host) (events : list Event) (label : string)
        (elements : gmap string DOption.t),
        WDisambiguation label elements
          ∈ shown (world_of (session host events initial)) ->
        exists results, elements = CreateDisambiguationElements results).
Proof.
  split.
  - intros results.
    assert (CreateDisambiguationElements results !! "next"
            = if decide (length results = 20%nat)
              then Some (DOption.mk "Next 20 Results" 21 NextPage)
              else None) as Hnext.
    { unfold CreateDisambiguationElements. cbv zeta.
      rewrite lookup_insert_ne by done.
      destruct (Z.eqb_spec (Z.of_nat (length results)) limit) as [Heq|Hne].
      - rewrite lookup_insert_eq, Heq.
        rewrite decide_True by (unfold limit in Heq; lia). reflexivity.
      - rewrite item_options_from_other by apply pretty_not_next.
        rewrite lookup_empty.
        rewrite decide_False by (unfold limit in Hne; lia). reflexivity. }
    split; [exact Hnext|]. split.
    + rewrite Hnext. case_decide; split; intros Hx; try done;
        by destruct Hx.
    + unfold CreateDisambiguationElements. cbv zeta.
      by rewrite lookup_insert_eq.
  - intros host events label elements Hin.
    pose proof (keeps_session host events initial) as Hall.
    specialize (Hall (Forall_nil_2 _)).
    rewrite Forall_forall in Hall. exact (Hall _ Hin).
Qed.

(** C6. On every offset a cursor can hold, [next] followed by [prev] gives
    the offset back and [prev] at 0 stays at 0; [prev] never takes a
    multiple of the page size below zero, and no sequence of navigation
    actions short enough not to overflow a Go [int] does. The two closures
    move the package-level [skip] by exactly these functions. *)
Theorem next_then_previous_restores_offset (host : Host) (w : World) :
  (0 <= skip w <= max_int)%Z ->
  prev_skip (next_skip (skip w)) = skip w
  /\ skip (world_of (OnChange_prev host (world_of (OnChange_next host w))))
     = skip w
  /\ prev_skip 0 = 0%Z
  /\ (skip w = 0%Z -> skip (world_of (OnChange_prev host w)) = 0%Z)
  /\ ((limit | skip w)%Z -> (0 <= prev_skip (skip w))%Z)
  /\ (forall l : list Nav,
        (limit * Z.of_nat (length l) <= max_int)%Z ->
        (0 <= navigate 0 l)%Z /\ (limit | navigate 0 l)%Z).
Proof.
  intros Hs. split; [by apply prev_next_skip|]. split.
  { destruct (OnChange_next_world host w) as (Hn & _).
    destruct (OnChange_prev_world host (world_of (OnChange_next host w)))
      as (Hp & _).
    rewrite Hp, Hn. by apply prev_next_skip. }
  split; [reflexivity|]. split.
  { intros H0. destruct (OnChange_prev_world host w) as (Hp & _).
    by rewrite Hp, H0. }
  split.
  { intros Hd. rewrite prev_skip_small by done. lia. }
  intros l Hl.
  destruct (navigate_bounds l 0) as [[H1 _] H2];
    [lia | apply Z.divide_0_r | lia |]. done.
Qed.

Lemma next_then_previous_restores_offset_at_40 :
  (0 <= 40 <= max_int)%Z
  /\ prev_skip (next_skip 40) = 40%Z
  /\ skip (world_of (OnChange_prev registry
             (world_of (OnChange_next registry
                (mkWorld 40 SearchParams.zero [] [] [])))))
     = 40%Z.
Proof.
  split; [unfold max_int; lia|].
  pose proof (next_then_previous_restores_offset registry
                (mkWorld 40 SearchParams.zero [] [] [])) as H.
  simpl in H. destruct H as (H1 & H2 & _); [unfold max_int; lia|].
  split; [exact H1 | exact H2].
Defined.

(** C9. The option of the [i]-th record of a page is stored under key [i]
    and is labelled ["* NPI: <number>, <label>"], where the label is
    ["Organization: <name>"] when the organization name is non-empty
    (whatever the first name), else ["Name: <first> <last>"] when the first
    name is non-empty, else empty. *)
Theorem label_precedence (results : list NpiInfo.t) (i : nat) (item : NpiInfo.t) :
  results !! i = Some item ->
  (exists o,
     CreateDisambiguationElements results !! pretty (Z.of_nat i) = Some o
     /\ DOption.Label o
        = "* NPI: " +:+ pretty (NpiInfo.Number item) +:+ ", " +:+ item_label item)
  /\ (Basic.Organization (NpiInfo.Basic item) <> "" ->
      item_label item
      = "Organization: " +:+ Basic.Organization (NpiInfo.Basic item))
  /\ (Basic.Organization (NpiInfo.Basic item) = "" ->
      Basic.FirstName (NpiInfo.Basic item) <> "" ->
      item_label item
      = "Name: " +:+ Basic.FirstName (NpiInfo.Basic item)
        +:+ " " +:+ Basic.LastName (NpiInfo.Basic item))
  /\ (Basic.Organization (NpiInfo.Basic item) = "" ->
      Basic.FirstName (NpiInfo.Basic item) = "" ->
      item_label item = ""
      /\ "* NPI: " +:+ pretty (NpiInfo.Number item) +:+ ", " +:+ item_label item
         = "* NPI: " +:+ pretty (NpiInfo.Number item) +:+ ", ").
Proof.
  intros Hi. split.
  { exists (item_option (Z.of_nat i) item). split; [|reflexivity].
    unfold CreateDisambiguationElements. cbv zeta.
    rewrite lookup_insert_ne by (intros H; symmetry in H; by apply pretty_not_prev in H).
    assert (item_options_from 0 results ∅ !! pretty (Z.of_nat i)
            = Some (item_option (Z.of_nat i) item)) as Hl.
    { exact (item_options_from_lookup results 0 ∅ i item Hi). }
    case_match; [|exact Hl].
    rewrite lookup_insert_ne by (intros H'; symmetry in H'; by apply pretty_not_next in H').
    exact Hl. }
  unfold item_label. cbv zeta.
  split; [|split].
  - intros Ho. apply String.eqb_neq in Ho. by rewrite Ho.
  - intros Ho Hf. apply String.eqb_neq in Hf. rewrite Ho, Hf. reflexivity.
  - intros Ho Hf. rewrite Ho, Hf. by split.
Qed.

Lemma label_precedence_both_names :
  let item := NpiInfo.mk 1234567893 (Basic.mk "JANE" "DOE" "DOE CLINIC") "NPI-2"
                [] [] [] in
  [provider 0; item] !! 1%nat = Some item
  /\ (exists o,
        CreateDisambiguationElements [provider 0; item] !! "1" = Some o
        /\ DOption.Label o = "* NPI: 1234567893, Organization: DOE CLINIC").
Proof.
  split; [reflexivity|].
  destruct (label_precedence
              [provider 0;
               NpiInfo.mk 1234567893 (Basic.mk "JANE" "DOE" "DOE CLINIC") "NPI-2"
                 [] [] []] 1
              (NpiInfo.mk 1234567893 (Basic.mk "JANE" "DOE" "DOE CLINIC") "NPI-2"
                 [] [] []) eq_refl) as ((o & Ho & Hl) & _).
  exists o. split; [exact Ho | exact Hl].
Defined.

Lemma ReplaceAll_nonempty (s : string) (old new : ascii) :
  s <> "" -> ReplaceAll s old new <> "".
Proof. by destruct s. Qed.

(** What [OnChange_number] does, case by case: the warning is emitted exactly
    when the length is neither 0 nor 10, and the value is stored unless the
    warning was due and its whisper failed. *)
Lemma OnChange_number_world (host : Host) (number : string) (w : World) :
  let w' := world_of (OnChange_number host number w) in
  let due := negb (len number =? 10)%Z && negb (len number =? 0)%Z in
  shown w'
  = (shown w
     ++ if due then [WMarkdown "LookupNPI Error" "Npi must be 10 digits"]
        else [])%list
  /\ SearchParams.Number (searchParams w')
     = match WhisperErr host (length (shown w)) with
       | Some _ => if due then SearchParams.Number (searchParams w) else number
       | None => number
       end.
Proof.
  cbv zeta. unfold OnChange_number, set_Number.
  assert ((len number >? 0)%Z = negb (len number =? 0)%Z) as ->.
  { unfold len. destruct number; reflexivity. }
  destruct (negb (len number =? 10)%Z && negb (len number =? 0)%Z);
    unfold emit, log, set_searchParams, mbind, M_bind, bind, gets, modify;
    simpl; destruct (WhisperErr host (length (shown w))); simpl;
    rewrite ?app_nil_r; done.
Qed.

(** C1. [run] clears the shared query when it returns, and the navigation
    closures build their request and their title from the shared query, not
    from a copy of what was submitted. After a search for the last name
    Smith, a [next] selected while the first list is still being served
    asks for offset 20 of that query; once [run] has returned, a [next]
    selected on the list left on screen asks for offset 40 of the empty
    query and titles its list with six empty fields. *)
Theorem navigation_reads_the_cleared_query :
  (forall (host : Host) edits isSubmitted during (w w' : World),
     run host edits isSubmitted during w = Ok tt w' ->
     searchParams w' = SearchParams.zero
     /\ sent (world_of (OnChange_next host w'))
        = (sent w' ++ [lookup_url SearchParams.zero limit (next_skip (skip w'))])%list
     /\ sent (world_of (OnChange_prev host w'))
        = (sent w' ++ [lookup_url SearchParams.zero limit (prev_skip (skip w'))])%list)
  /\ (let w :=
        world_of
          (session registry
             [Searchbar "npi" None [("lastName", "Smith")] true
                [mkSelection 1 "next"];
              Select (mkSelection 2 "next")] initial) in
      sent w
      = [lookup_url (SearchParams.mk "" "" "Smith*" "" "" "") 20 0;
         lookup_url (SearchParams.mk "" "" "Smith*" "" "" "") 20 20;
         lookup_url (SearchParams.mk "" "" "" "" "" "") 20 40]
      /\ shown w
         = [WForm "NPI Lookup" "Enter Search Criteria" "Cancel" "Search";
            WDisambiguation "LookupNPI Results for:   Smith*   "
              (CreateDisambiguationElements full_page);
            WDisambiguation "LookupNPI Results for:   Smith*   "
              (CreateDisambiguationElements full_page);
            WDisambiguation "LookupNPI Results for:      "
              (CreateDisambiguationElements full_page)])
  /\ (let w :=
        world_of
          (session registry
             [Searchbar "npi" None [("lastName", "Smith")] true [];
              Select (mkSelection 1 "next")] initial) in
      sent w
      = [lookup_url (SearchParams.mk "" "" "Smith*" "" "" "") 20 0;
         lookup_url (SearchParams.mk "" "" "" "" "" "") 20 20]).
Proof.
  split; [|split].
  - intros host edits b during w w' Hrun.
    pose proof (run_clears host edits b during w w' Hrun) as Hz.
    destruct (OnChange_next_world host w') as (_ & _ & Hn).
    destruct (OnChange_prev_world host w') as (_ & _ & Hp).
    rewrite Hz in Hn, Hp. done.
  - cbv zeta. split; vm_compute; reflexivity.
  - vm_compute. reflexivity.
Qed.

(** C2. [run] passes the literal offset 0 to its own lookup and never
    assigns [skip]: a new search leaves the cursor where the previous one
    left it, and its first [next] asks for that stale offset plus 20. After
    one [next] in a first search, the first [next] of a second search asks
    for offset 40, whether the selections arrive while [run] is serving its
    list or after it has returned. *)
Theorem new_search_keeps_stale_offset :
  (forall (host : Host) edits isSubmitted (w : World),
     skip (world_of (run host edits isSubmitted [] w)) = skip w)
  /\ (let w :=
        world_of
          (session registry
             [Searchbar "npi" None [("lastName", "Smith")] true
                [mkSelection 1 "next"];
              Searchbar "npi" None [("lastName", "Jones")] true
                [mkSelection 4 "next"]] initial) in
      skip w = 40%Z
      /\ sent w
         = [lookup_url (SearchParams.mk "" "" "Smith*" "" "" "") 20 0;
            lookup_url (SearchParams.mk "" "" "Smith*" "" "" "") 20 20;
            lookup_url (SearchParams.mk "" "" "Jones*" "" "" "") 20 0;
            lookup_url (SearchParams.mk "" "" "Jones*" "" "" "") 20 40])
  /\ (let w :=
        world_of
          (session registry
             [Searchbar "npi" None [("lastName", "Smith")] true [];
              Select (mkSelection 1 "next");
              Searchbar "npi" None [("lastName", "Jones")] true [];
              Select (mkSelection 4 "next")] initial) in
      skip w = 40%Z
      /\ sent w
         = [lookup_url (SearchParams.mk "" "" "Smith*" "" "" "") 20 0;
            lookup_url (SearchParams.mk "" "" "" "" "" "") 20 20;
            lookup_url (SearchParams.mk "" "" "Jones*" "" "" "") 20 0;
            lookup_url (SearchParams.mk "" "" "" "" "" "") 20 40]).
Proof.
  split; [|split].
  - intros host edits b w. apply run_skip.
  - cbv zeta. split; vm_compute; reflexivity.
  - cbv zeta. split; vm_compute; reflexivity.
Qed.

(** C3. A cancelled form still costs one request: [run] calls
    [GetLookupResults] before it looks at [isSubmitted], with the query the
    form was left with; only the choice list is skipped, and the query is
    cleared when [run] returns. *)
Theorem cancelled_form_still_queries (host : Host)
    (edits : list (string * string)) (during : list Selection) (w : World) :
  sent (world_of (run host edits false during w))
  = (sent w
     ++ [lookup_url
           (RemoveSpaces (searchParams (form_world host edits false w)))
           limit 0])%list
  /\ shown (world_of (run host edits false during w))
     = shown (form_world host edits false w)
  /\ (forall w', run host edits false during w = Ok tt w' ->
                 searchParams w' = SearchParams.zero)
  /\ sent (world_of (run registry [("lastName", "Smith")] false [] initial))
     = [lookup_url (SearchParams.mk "" "" "Smith*" "" "" "") 20 0].
Proof.
  split; [|split; [|split]].
  - destruct (run_sent host edits false during w) as (l & Hl & Hnil).
    by rewrite Hl, (Hnil eq_refl).
  - apply run_cancel_shown.
  - intros w'. apply run_clears.
  - vm_compute. reflexivity.
Qed.

(** C4, as stated, fails: when the answer of the registry does not decode,
    and when the transport reports an error, [GetLookupResults] returns a
    page (here the zero-valued one) and the failure only reaches the log;
    and [next] has moved the cursor from 0 to 20 although its lookup
    failed. *)
Lemma failed_lookup_returns_a_page :
  GetLookupResults garbled SearchParams.zero limit 0 initial
  = Ok LookupResults.zero
      (mkWorld 0 SearchParams.zero [lookup_url SearchParams.zero 20 0] []
         [Error "JSON Unmarshal failed"
            "invalid character 'B' looking for beginning of value"])
  /\ GetLookupResults offline SearchParams.zero limit 0 initial
     = Ok LookupResults.zero
         (mkWorld 0 SearchParams.zero [lookup_url SearchParams.zero 20 0] []
            [Error "Lookup failed" "connection refused";
             Error "JSON Unmarshal failed"
               "invalid character 'B' looking for beginning of value"])
  /\ skip (world_of (OnChange_next garbled initial)) = 20%Z.
Proof. repeat split; vm_compute; reflexivity. Qed.

(** C4, amended. Whenever the transport hands back a response object, with
    or without an error, [GetLookupResults] returns a page: what the decoder
    left in the zero-valued [LookupResults]. A transport error and a decode
    error are logged with their cause and nothing else tells the caller.
    [GetLookupResults] itself leaves the cursor and the query alone; the
    navigation closures have moved the cursor before they call it and keep
    the new offset whatever the lookup does. *)
Theorem failed_lookup_is_logged_not_returned (host : Host)
    (sp : SearchParams.t) (l s : Z) (w : World)
    (resp : HTTPResponse.t) (err : option error) :
  HTTPRequest host (length (sent w)) (lookup_url sp l s) = (Some resp, err) ->
  (exists w',
     GetLookupResults host sp l s w
     = Ok (Unmarshal host (HTTPResponse.Data resp) LookupResults.zero).1 w'
     /\ logged w'
        = (logged w
           ++ match err with
              | Some e => [Error "Lookup failed" e]
              | None => []
              end
           ++ match (Unmarshal host (HTTPResponse.Data resp)
                       LookupResults.zero).2 with
              | Some e => [Error "JSON Unmarshal failed" e]
              | None => []
              end)%list
     /\ skip w' = skip w /\ searchParams w' = searchParams w)
  /\ skip (world_of (OnChange_next host w)) = next_skip (skip w)
  /\ skip (world_of (OnChange_prev host w)) = prev_skip (skip w).
Proof.
  intros Hresp. split; [|split].
  - eexists. split; [by apply GetLookupResults_response|]. by simpl.
  - apply OnChange_next_world.
  - apply OnChange_prev_world.
Qed.

Lemma failed_lookup_is_logged_not_returned_offline :
  HTTPRequest offline (length (sent initial))
    (lookup_url SearchParams.zero limit 0)
  = (Some (HTTPResponse.mk 0 ""), Some "connection refused")
  /\ (exists w',
        GetLookupResults offline SearchParams.zero limit 0 initial
        = Ok LookupResults.zero w'
        /\ logged w'
           = [Error "Lookup failed" "connection refused";
              Error "JSON Unmarshal failed"
                "invalid character 'B' looking for beginning of value"]).
Proof.
  split; [reflexivity|].
  destruct (failed_lookup_is_logged_not_returned offline SearchParams.zero
              limit 0 initial (HTTPResponse.mk 0 "") (Some "connection refused")
              eq_refl) as ((w' & HG & Hlog & _) & _).
  exists w'. split; [exact HG | exact Hlog].
Defined.

(** C7, as stated, fails: the input stores what was typed, spaces and all;
    the spaces are replaced in the copy of the query that [run] hands to its
    own lookup, and a [next] selected while that first list is still being
    served sends the stored value as it is. *)
Lemma stored_free_text_keeps_spaces :
  SearchParams.LastName
    (searchParams
       (world_of (edit (CreateFormInputs registry) ("lastName", "Van Dyke")
                    initial)))
  = "Van Dyke*"
  /\ has_space "Van Dyke*" = true
  /\ sent (world_of (run registry [("lastName", "Van Dyke")] true
                       [mkSelection 1 "next"] initial))
     = [lookup_url (SearchParams.mk "" "" "Van+Dyke*" "" "" "") 20 0;
        lookup_url (SearchParams.mk "" "" "Van Dyke*" "" "" "") 20 20].
Proof. repeat split; vm_compute; reflexivity. Qed.

(** C7, amended. A free-text input stores the raw input followed by ['*'],
    spaces kept. The query [run] passes to its lookup when the form closes
    is [RemoveSpaces] of the stored one: no field of it holds a space, and
    the field just written reads as the raw input with every space turned
    into ['+'], followed by ['*']. *)
Theorem free_text_spaces_replaced_at_first_lookup (host : Host)
    (name raw : string) (edits : list (string * string))
    (isSubmitted : bool) (during : list Selection) (w : World) :
  name ∈ free_text ->
  let stored :=
    searchParams (world_of (edit (CreateFormInputs host) (name, raw) w)) in
  let query := searchParams (form_world host edits isSubmitted w) in
  field name stored = raw +:+ "*"
  /\ last_byte (field name stored) = Some "*"%char
  /\ has_space (field name stored) = has_space raw
  /\ field name (RemoveSpaces stored) = ReplaceAll raw " " "+" +:+ "*"
  /\ last_byte (field name (RemoveSpaces stored)) = Some "*"%char
  /\ (forall n, has_space (field n (RemoveSpaces query)) = false)
  /\ (exists l,
        sent (world_of (run host edits isSubmitted during w))
        = (sent w ++ lookup_url (RemoveSpaces query) limit 0 :: l)%list).
Proof.
  intros Hin. cbv zeta.
  pose proof (edit_free_text host name raw w Hin) as Hst.
  rewrite field_RemoveSpaces, Hst, ReplaceAll_app.
  change (ReplaceAll "*" " " "+") with "*".
  rewrite !last_byte_star, has_space_star.
  repeat split; try done.
  - intros n. rewrite field_RemoveSpaces. apply has_space_ReplaceAll.
  - destruct (run_sent host edits isSubmitted during w) as (l & Hl & _).
    by exists l.
Qed.

Lemma free_text_spaces_replaced_at_first_lookup_van_dyke :
  "lastName" ∈ free_text
  /\ field "lastName"
       (RemoveSpaces
          (searchParams
             (world_of (edit (CreateFormInputs registry)
                          ("lastName", "Van Dyke") initial))))
     = "Van+Dyke*".
Proof.
  assert ("lastName" ∈ free_text) as Hin.
  { unfold free_text. apply list_elem_of_further, list_elem_of_here. }
  split; [exact Hin|].
  destruct (free_text_spaces_replaced_at_first_lookup registry "lastName"
              "Van Dyke" [] false [] initial Hin) as (_ & _ & _ & H & _).
  exact H.
Defined.

(** C8. The warning about the NPI number is due exactly when the length is
    neither 0 nor 10, but the value is stored only after the warning went
    through: when its whisper fails, [OnChange_number] logs and returns, and
    the query keeps its previous number. With a whisper service that times
    out, typing 123 leaves the number empty. *)
Theorem number_lost_when_warning_fails :
  (let w :=
     world_of (edit (CreateFormInputs impatient) ("number", "123") initial) in
   shown w = [WMarkdown "LookupNPI Error" "Npi must be 10 digits"]
   /\ logged w = [Error "failed to emit whisper" "context deadline exceeded"]
   /\ SearchParams.Number (searchParams w) = "")
  /\ (let w :=
        world_of (edit (CreateFormInputs impatient) ("city", "Boston") initial) in
      logged w = [Error "failed to emit whisper" "context deadline exceeded"]
      /\ SearchParams.City (searchParams w) = "Boston*")
  /\ (forall (host : Host) (number : string) (w : World),
        let w' := world_of (OnChange_number host number w) in
        let due := negb (len number =? 10)%Z && negb (len number =? 0)%Z in
        shown w'
        = (shown w
           ++ if due then [WMarkdown "LookupNPI Error" "Npi must be 10 digits"]
              else [])%list
        /\ SearchParams.Number (searchParams w')
           = match WhisperErr host (length (shown w)) with
             | Some _ =>
                 if due then SearchParams.Number (searchParams w) else number
             | None => number
             end).
Proof.
  split; [|split].
  - cbv zeta. repeat split; vm_compute; reflexivity.
  - cbv zeta. repeat split; vm_compute; reflexivity.
  - apply OnChange_number_world.
Qed.

(** C10. A free-text input stores the raw input followed by ['*'], the
    empty input included: clearing the field stores ["*"]. From then on the
    field is non-empty however the form is edited, the query [run] sends
    when the form closes carries it, and if the field was not edited again
    that query carries the raw input (spaces replaced) followed by ['*'];
    ["*"] alone for a cleared field. *)
Theorem free_text_field_keeps_wildcard (host : Host) (name raw : string)
    (before after : list (string * string)) (isSubmitted : bool)
    (during : list Selection) (w : World) :
  name ∈ free_text ->
  let edits := (before ++ (name, raw) :: after)%list in
  let query := searchParams (form_world host edits isSubmitted w) in
  field name
    (searchParams (world_of (edit (CreateFormInputs host) (name, raw) w)))
  = raw +:+ "*"
  /\ field name
       (searchParams (world_of (edit (CreateFormInputs host) (name, "") w)))
     = "*"
  /\ field name query <> ""
  /\ field name (RemoveSpaces query) <> ""
  /\ (exists l,
        sent (world_of (run host edits isSubmitted during w))
        = (sent w ++ lookup_url (RemoveSpaces query) limit 0 :: l)%list)
  /\ ((forall e, e ∈ after -> e.1 <> name) ->
      field name query = raw +:+ "*"
      /\ field name (RemoveSpaces query) = ReplaceAll raw " " "+" +:+ "*").
Proof.
  intros Hin. cbv zeta.
  rewrite form_world_edits.
  rewrite forM__app_world by apply never_panics_edit.
  rewrite forM__cons_world by apply never_panics_edit.
  set (w1 := world_of (forM_ before _ _)).
  assert (field name
            (searchParams
               (world_of (edit (CreateFormInputs host) (name, raw) w1)))
          <> "") as Hne.
  { rewrite edit_free_text by done. by destruct raw. }
  split; [by apply edit_free_text|].
  split; [by apply (edit_free_text host name "")|].
  split; [by apply edits_keep_nonempty|].
  split.
  { rewrite field_RemoveSpaces. by apply ReplaceAll_nonempty, edits_keep_nonempty. }
  split.
  { destruct (run_sent host (before ++ (name, raw) :: after) isSubmitted during w)
      as (l & Hl & _).
    exists l. rewrite Hl, form_world_edits.
    rewrite forM__app_world by apply never_panics_edit.
    rewrite forM__cons_world by apply never_panics_edit. done. }
  intros Hafter.
  rewrite field_RemoveSpaces, edits_other_field by done.
  rewrite edit_free_text by done.
  split; [done|]. by rewrite ReplaceAll_app.
Qed.

Lemma free_text_field_keeps_wildcard_cleared :
  "lastName" ∈ free_text
  /\ field "lastName"
       (searchParams
          (form_world registry
             [("lastName", "Smith"); ("lastName", ""); ("number", "1234567890")]
             true initial))
     <> ""
  /\ (exists l,
        sent (world_of (run registry
                [("lastName", "Smith"); ("lastName", ""); ("number", "1234567890")]
                true [] initial))
        = lookup_url (SearchParams.mk "1234567890" "" "*" "" "" "") 20 0 :: l).
Proof.
  assert ("lastName" ∈ free_text) as Hin.
  { unfold free_text. apply list_elem_of_further, list_elem_of_here. }
  split; [exact Hin|].
  destruct (free_text_field_keeps_wildcard registry "lastName" ""
              [("lastName", "Smith")] [("number", "1234567890")] true []
              initial Hin) as (_ & _ & Hne & _ & (l & Hl) & _).
  split; [exact Hne|].
  exists l. exact Hl.
Defined.

(** * Further properties of the loop *)

(** ** [RemoveSpaces] and the request *)

Lemma ReplaceAll_length (s : string) (old new : ascii) :
  String.length (ReplaceAll s old new) = String.length s.
Proof. induction s as [|c s IH]; simpl; [done | by rewrite IH]. Qed.

Lemma ReplaceAll_no_space (s : string) :
  has_space s = false -> ReplaceAll s " " "+" = s.
Proof.
  induction s as [|c s IH]; simpl; [done|].
  intros H. apply orb_false_iff in H as [Hc Hs].
  by rewrite Hc, IH.
Qed.

Lemma SearchParams_eq (p q : SearchParams.t) :
  (forall n, field n p = field n q) -> p = q.
Proof.
  intros H. destruct p, q.
  pose proof (H "number"). pose proof (H "firstName").
  pose proof (H "lastName"). pose proof (H "organization").
  pose proof (H "city"). pose proof (H "state").
  clear H. cbv in *. congruence.
Qed.

(** X1. [RemoveSpaces] changes nothing but spaces: it is idempotent, keeps
    the length of every field, and returns a query without spaces as it
    is. *)
Theorem RemoveSpaces_only_spaces (p : SearchParams.t) :
  RemoveSpaces (RemoveSpaces p) = RemoveSpaces p
  /\ (forall n,
        String.length (field n (RemoveSpaces p)) = String.length (field n p))
  /\ ((forall n, has_space (field n p) = false) -> RemoveSpaces p = p).
Proof.
  split; [|split].
  - apply SearchParams_eq. intros n.
    rewrite !field_RemoveSpaces.
    apply ReplaceAll_no_space, has_space_ReplaceAll.
  - intros n. rewrite field_RemoveSpaces. apply ReplaceAll_length.
  - intros H. apply SearchParams_eq. intros n.
    rewrite field_RemoveSpaces. apply ReplaceAll_no_space, H.
Qed.

Lemma append_assoc (a b c : string) : (a +:+ b) +:+ c = a +:+ (b +:+ c).
Proof.
  induction a as [|x a IH]; [done|].
  change (String x ((a +:+ b) +:+ c) = String x (a +:+ (b +:+ c))).
  by rewrite IH.
Qed.

(** X2. The fields are spliced into the URL as they are, [&] and [=]
    included: a city that ends with a [state] parameter of its own and a
    state that starts with one give the very same request. *)
Theorem lookup_url_splices_fields (p : SearchParams.t) (a b c : string)
    (l s : Z) :
  lookup_url (with_city_state p (a +:+ "&state=" +:+ b) c) l s
  = lookup_url (with_city_state p a (b +:+ "&state=" +:+ c)) l s.
Proof.
  unfold lookup_url, with_city_state. simpl.
  repeat (f_equal; []).
  rewrite !append_assoc. reflexivity.
Qed.

(** ** The summaries of the detail view *)

Lemma append_empty_r (a : string) : a +:+ "" = a.
Proof.
  induction a as [|x a IH]; [done|].
  change (String x (a +:+ "") = String x a). by rewrite IH.
Qed.

Lemma CreateAddressStrings_from_lines (addresses : list Address.t) :
  forall (i : Z) (acc : string),
  CreateAddressStrings_from i addresses acc
  = acc +:+ lines_from address_line i addresses.
Proof.
  induction addresses as [|a rest IH]; intros i acc; simpl.
  - by rewrite append_empty_r.
  - rewrite IH. unfold address_line. rewrite !append_assoc. reflexivity.
Qed.

Lemma CreateTaxonomyStrings_from_lines (taxonomies : list Taxonomy.t) :
  forall (i : Z) (acc : string),
  CreateTaxonomyStrings_from i taxonomies acc
  = acc +:+ lines_from taxonomy_line i taxonomies.
Proof.
  induction taxonomies as [|a rest IH]; intros i acc; simpl.
  - by rewrite append_empty_r.
  - rewrite IH. unfold taxonomy_line. rewrite !append_assoc. reflexivity.
Qed.

Lemma lines_from_app {A} (line : Z -> A -> string) (l1 l2 : list A) :
  forall i : Z,
  lines_from line i (l1 ++ l2)
  = lines_from line i l1 +:+ lines_from line (i + Z.of_nat (length l1)) l2.
Proof.
  induction l1 as [|a l1 IH]; intros i.
  - simpl. by rewrite Z.add_0_r.
  - rewrite <- app_comm_cons. simpl lines_from.
    rewrite IH, append_assoc.
    replace (i + Z.of_nat (S (length l1)))%Z
      with (i + 1 + Z.of_nat (length l1))%Z by lia.
    reflexivity.
Qed.

(** X3. The address and taxonomy summaries are the lines of their entries
    in order, numbered from 1, each ending in a newline; no entry gives the
    empty string, and the summary of two lists put end to end is the
    summary of the first followed by the lines of the second, numbered
    on. *)
Theorem summaries_are_numbered_lines :
  (forall addresses,
     CreateAddressStrings addresses = lines_from address_line 0 addresses)
  /\ (forall taxonomies,
        CreateTaxonomyStrings taxonomies
        = lines_from taxonomy_line 0 taxonomies)
  /\ CreateAddressStrings [] = "" /\ CreateTaxonomyStrings [] = ""
  /\ (forall l1 l2,
        CreateAddressStrings (l1 ++ l2)
        = CreateAddressStrings l1
          +:+ lines_from address_line (Z.of_nat (length l1)) l2)
  /\ (forall l1 l2,
        CreateTaxonomyStrings (l1 ++ l2)
        = CreateTaxonomyStrings l1
          +:+ lines_from taxonomy_line (Z.of_nat (length l1)) l2).
Proof.
  assert (forall addresses,
            CreateAddressStrings addresses
            = lines_from address_line 0 addresses) as HA.
  { intros l. unfold CreateAddressStrings.
    by rewrite CreateAddressStrings_from_lines. }
  assert (forall taxonomies,
            CreateTaxonomyStrings taxonomies
            = lines_from taxonomy_line 0 taxonomies) as HT.
  { intros l. unfold CreateTaxonomyStrings.
    by rewrite CreateTaxonomyStrings_from_lines. }
  repeat split; try done.
  - intros l1 l2. by rewrite !HA, lines_from_app.
  - intros l1 l2. by rewrite !HT, lines_from_app.
Qed.

(** ** Maps keyed by the index of a loop *)

Lemma item_options_from_keyed (rs : list NpiInfo.t) :
  forall i m, item_options_from i rs m = keyed_from item_option i rs m.
Proof. induction rs as [|r rs IH]; intros i m; simpl; [done | apply IH]. Qed.

Lemma other_names_from_keyed (names : list OtherName.t) :
  forall i m,
  other_names_from i names m
  = keyed_from (fun _ => other_name_pair) i names m.
Proof.
  induction names as [|n names IH]; intros i m; simpl; [done | apply IH].
Qed.

Section Keyed.
Context {A V : Type} (f : Z -> A -> V).

Lemma keyed_from_other (l : list A) :
  forall (i : Z) (m : gmap string V) (k : string),
  (forall n : nat, (n < length l)%nat -> k <> pretty (i + Z.of_nat n)%Z) ->
  keyed_from f i l m !! k = m !! k.
Proof.
  induction l as [|a l IH]; intros i m k Hk; simpl; [done|].
  rewrite IH.
  - rewrite lookup_insert_ne; [done|].
    intros Heq. apply (Hk 0%nat); [simpl; lia|].
    by rewrite Z.add_0_r.
  - intros n Hn. replace (i + 1 + Z.of_nat n)%Z with (i + Z.of_nat (S n))%Z by lia.
    apply Hk. simpl. lia.
Qed.

Lemma keyed_from_lookup (l : list A) :
  forall (i : Z) (m : gmap string V) (n : nat) (a : A),
  l !! n = Some a ->
  keyed_from f i l m !! pretty (i + Z.of_nat n)%Z = Some (f (i + Z.of_nat n)%Z a).
Proof.
  induction l as [|x l IH]; intros i m n a Hn; [done|].
  destruct n as [|n]; cbn [keyed_from].
  - injection Hn as ->. rewrite Z.add_0_r.
    rewrite keyed_from_other; [by rewrite lookup_insert_eq|].
    intros n _ Heq. apply (inj pretty) in Heq. lia.
  - replace (i + Z.of_nat (S n))%Z with (i + 1 + Z.of_nat n)%Z by lia.
    exact (IH (i + 1)%Z _ n a Hn).
Qed.

Lemma keyed_from_size (l : list A) :
  forall (i : Z) (m : gmap string V),
  (forall j : Z, (i <= j)%Z -> m !! pretty j = None) ->
  size (keyed_from f i l m) = (size m + length l)%nat.
Proof.
  induction l as [|a l IH]; intros i m Hm; simpl; [lia|].
  rewrite IH.
  - rewrite map_size_insert_None by (apply Hm; lia). lia.
  - intros j Hj. rewrite lookup_insert_ne; [apply Hm; lia|].
    intros Heq. apply (inj pretty) in Heq. lia.
Qed.

Lemma keyed_from_is_Some (l : list A) :
  forall (i : Z) (m : gmap string V) (k : string),
  is_Some (keyed_from f i l m !! k) ->
  is_Some (m !! k)
  \/ exists n : nat, (n < length l)%nat /\ k = pretty (i + Z.of_nat n)%Z.
Proof.
  induction l as [|a l IH]; intros i m k Hk; simpl in *; [by left|].
  destruct (IH _ _ _ Hk) as [Hin|(n & Hn & ->)].
  - destruct (decide (pretty i = k)) as [<-|Hne].
    + right. exists 0%nat. split; [lia|]. by rewrite Z.add_0_r.
    + left. by rewrite lookup_insert_ne in Hin.
  - right. exists (S n). split; [lia|]. f_equal. lia.
Qed.

End Keyed.

Lemma digit_not_a d : pretty_N_char d <> "a"%char.
Proof. unfold pretty_N_char. by repeat case_match. Qed.

Lemma digit_not_e d : pretty_N_char d <> "e"%char.
Proof. unfold pretty_N_char. by repeat case_match. Qed.

Lemma digit_not_o d : pretty_N_char d <> "o"%char.
Proof. unfold pretty_N_char. by repeat case_match. Qed.

Lemma digit_not_t d : pretty_N_char d <> "t"%char.
Proof. unfold pretty_N_char. by repeat case_match. Qed.

(** A decimal key is none of the six fixed keys of the detail view. *)
Lemma pretty_not_fixed (z : Z) (k : string) :
  k ∈ ["number"; "name"; "organization"; "enumeration"; "address"; "taxonomy"] ->
  k <> pretty z.
Proof.
  intros Hk Heq. symmetry in Heq. revert Heq.
  repeat (apply elem_of_cons in Hk as [->|Hk]);
    [apply pretty_Z_head; [apply digit_not_n | done]
    |apply pretty_Z_head; [apply digit_not_n | done]
    |apply pretty_Z_head; [apply digit_not_o | done]
    |apply pretty_Z_head; [apply digit_not_e | done]
    |apply pretty_Z_head; [apply digit_not_a | done]
    |apply pretty_Z_head; [apply digit_not_t | done]
    |by apply elem_of_nil in Hk].
Qed.

(** ** The detail view *)

(** X4. Whatever alternate names a record has, its detail view keeps the
    six fixed entries: the number, the name, the organization, the
    enumeration type (Individual for NPI-1, Organization for NPI-2, empty
    for anything else), the addresses and the taxonomies, with orders 1, 2,
    3, 5, 6 and 7. *)
Theorem detail_view_fixed_entries (item : NpiInfo.t) :
  CreateListElements item !! "number"
  = Some (Pair.mk "NPI Number" 1 (pretty (NpiInfo.Number item)))
  /\ CreateListElements item !! "name"
     = Some (Pair.mk "Provider Name" 2
               (Basic.FirstName (NpiInfo.Basic item) +:+ " "
                +:+ Basic.LastName (NpiInfo.Basic item)))
  /\ CreateListElements item !! "organization"
     = Some (Pair.mk "Organization" 3 (Basic.Organization (NpiInfo.Basic item)))
  /\ (exists v,
        CreateListElements item !! "enumeration"
        = Some (Pair.mk "Enumeration Type" 5 v)
        /\ (NpiInfo.EnumerationType item = "NPI-1" -> v = "Individual")
        /\ (NpiInfo.EnumerationType item = "NPI-2" -> v = "Organization")
        /\ (NpiInfo.EnumerationType item <> "NPI-1" ->
            NpiInfo.EnumerationType item <> "NPI-2" -> v = ""))
  /\ CreateListElements item !! "address"
     = Some (Pair.mk "Addresses" 6 (CreateAddressStrings (NpiInfo.Addresses item)))
  /\ CreateListElements item !! "taxonomy"
     = Some (Pair.mk "Taxonomies" 7
               (CreateTaxonomyStrings (NpiInfo.Taxonimies item))).
Proof.
  unfold CreateListElements. cbv zeta.
  rewrite other_names_from_keyed.
  assert (forall k,
            k ∈ ["number"; "name"; "organization"; "enumeration"; "address";
                 "taxonomy"] ->
            forall m : gmap string Pair.t,
            keyed_from (fun _ => other_name_pair) 0 (NpiInfo.OtherNames item) m
              !! k = m !! k) as Hfix.
  { intros k Hk m. apply keyed_from_other. intros n _. by apply pretty_not_fixed. }
  rewrite !Hfix by (repeat first [apply list_elem_of_here | apply list_elem_of_further]).
  repeat split; try (by simplify_map_eq).
  eexists. split; [by simplify_map_eq|].
  split; [|split].
  - intros ->. reflexivity.
  - intros ->. reflexivity.
  - intros H1 H2. apply String.eqb_neq in H1, H2. by rewrite H1, H2.
Qed.

(** X5. Every alternate name of a record is in its detail view, under the
    decimal key of its position, labelled by its type, with order 4 and the
    value "prefix first last organization"; the detail view has six entries
    more than the record has alternate names. *)
Theorem detail_view_alternate_names (item : NpiInfo.t) :
  (forall (i : nat) (name : OtherName.t),
     NpiInfo.OtherNames item !! i = Some name ->
     CreateListElements item !! pretty (Z.of_nat i)
     = Some (Pair.mk (OtherName.Type_ name) 4
               (OtherName.Prefix name +:+ " " +:+ OtherName.FirstName name
                +:+ " " +:+ OtherName.LastName name
                +:+ " " +:+ OtherName.Organization name)))
  /\ size (CreateListElements item)
     = (6 + length (NpiInfo.OtherNames item))%nat.
Proof.
  unfold CreateListElements. cbv zeta.
  rewrite other_names_from_keyed. split.
  - intros i name Hi.
    exact (keyed_from_lookup (fun _ => other_name_pair)
             (NpiInfo.OtherNames item) 0 _ i name Hi).
  - rewrite keyed_from_size.
    + rewrite !map_size_insert_None, map_size_empty; [lia|..];
        by simplify_map_eq.
    + intros j _.
      rewrite !lookup_insert_ne, lookup_empty; [done|..];
        apply pretty_not_fixed;
        repeat first [apply list_elem_of_here | apply list_elem_of_further].
Qed.

(** ** The choice list *)

Lemma CreateDisambiguationElements_item (results : list NpiInfo.t) (i : nat)
    (item : NpiInfo.t) :
  results !! i = Some item ->
  CreateDisambiguationElements results !! pretty (Z.of_nat i)
  = Some (item_option (Z.of_nat i) item).
Proof.
  intros Hi. unfold CreateDisambiguationElements. cbv zeta.
  rewrite lookup_insert_ne
    by (intros H; symmetry in H; by apply pretty_not_prev in H).
  assert (item_options_from 0 results ∅ !! pretty (Z.of_nat i)
          = Some (item_option (Z.of_nat i) item)) as Hl.
  { exact (item_options_from_lookup results 0 ∅ i item Hi). }
  destruct (Z.of_nat (length results) =? limit)%Z; [|exact Hl].
  rewrite lookup_insert_ne
    by (intros H'; symmetry in H'; by apply pretty_not_next in H').
  exact Hl.
Qed.

Lemma CreateDisambiguationElements_prev (results : list NpiInfo.t) :
  CreateDisambiguationElements results !! "prev"
  = Some (DOption.mk "Previous 20 Results"
            (uint32 (uint32 (Z.of_nat (length results)) + 1)) PrevPage).
Proof.
  unfold CreateDisambiguationElements. cbv zeta. by rewrite lookup_insert_eq.
Qed.

Lemma CreateDisambiguationElements_next (results : list NpiInfo.t) :
  CreateDisambiguationElements results !! "next"
  = if (Z.of_nat (length results) =? limit)%Z
    then Some (DOption.mk "Next 20 Results"
                 (uint32 (uint32 (Z.of_nat (length results)) + 1)) NextPage)
    else None.
Proof.
  unfold CreateDisambiguationElements. cbv zeta.
  rewrite lookup_insert_ne by done.
  destruct (Z.of_nat (length results) =? limit)%Z.
  - by rewrite lookup_insert_eq.
  - rewrite item_options_from_other by apply pretty_not_next.
    apply lookup_empty.
Qed.

(** X6. On a page of fewer than 2^32 - 1 records, the option of the
    [i]-th record has order [i + 1] and opens the detail of that very
    record; [prev] has order [length + 1], and so has [next] when it is
    there: the two navigation options share one order. *)
Theorem choice_list_orders_and_actions (results : list NpiInfo.t) :
  (Z.of_nat (length results) < 2 ^ 32 - 1)%Z ->
  (forall (i : nat) (item : NpiInfo.t),
     results !! i = Some item ->
     exists o,
       CreateDisambiguationElements results !! pretty (Z.of_nat i) = Some o
       /\ DOption.Order o = (Z.of_nat i + 1)%Z
       /\ DOption.OnChange o = ShowDetail item)
  /\ (exists o,
        CreateDisambiguationElements results !! "prev" = Some o
        /\ DOption.Order o = (Z.of_nat (length results) + 1)%Z
        /\ DOption.OnChange o = PrevPage)
  /\ (forall o,
        CreateDisambiguationElements results !! "next" = Some o ->
        DOption.Order o = (Z.of_nat (length results) + 1)%Z
        /\ DOption.OnChange o = NextPage).
Proof.
  intros Hlen.
  assert (forall z, (0 <= z < 2 ^ 32 - 1)%Z -> uint32 (uint32 z + 1) = (z + 1)%Z)
    as Hu.
  { intros z Hz. unfold uint32. rewrite (Z.mod_small z) by lia.
    apply Z.mod_small. lia. }
  split; [|split].
  - intros i item Hi.
    exists (item_option (Z.of_nat i) item).
    split; [by apply CreateDisambiguationElements_item|].
    split; [|reflexivity].
    simpl. apply Hu. apply lookup_lt_Some in Hi. lia.
  - eexists. split; [apply CreateDisambiguationElements_prev|].
    split; [|reflexivity]. simpl. apply Hu. lia.
  - intros o Ho. rewrite CreateDisambiguationElements_next in Ho.
    destruct (Z.of_nat (length results) =? limit)%Z; [|done].
    injection Ho as <-. simpl. split; [|reflexivity]. apply Hu. lia.
Qed.

Lemma choice_list_orders_and_actions_full_page :
  (Z.of_nat (length full_page) < 2 ^ 32 - 1)%Z
  /\ (exists o,
        CreateDisambiguationElements full_page !! "prev" = Some o
        /\ DOption.Order o = 21%Z)
  /\ (exists o,
        CreateDisambiguationElements full_page !! "7" = Some o
        /\ DOption.Order o = 8%Z
        /\ DOption.OnChange o = ShowDetail (provider 7)).
Proof.
  assert (Z.of_nat (length full_page) < 2 ^ 32 - 1)%Z as Hlen by (vm_compute; done).
  split; [exact Hlen|].
  destruct (choice_list_orders_and_actions full_page Hlen)
    as (Hitem & (o & Ho & Hord & _) & _).
  split.
  - exists o. split; [exact Ho | exact Hord].
  - destruct (Hitem 7%nat (provider 7) eq_refl) as (o7 & Ho7 & Hord7 & Hact7).
    exists o7. split; [exact Ho7|]. split; [exact Hord7 | exact Hact7].
Defined.

(** X7. A choice list has one option per record of its page, [prev], and
    [next] on a page of 20, and nothing else: a key is in the list exactly
    when it is [prev], or [next] on a page of 20, or the decimal index of a
    record. *)
Theorem choice_list_keys (results : list NpiInfo.t) :
  size (CreateDisambiguationElements results)
  = (length results + if decide (length results = 20%nat) then 2 else 1)%nat
  /\ (forall k : string,
        is_Some (CreateDisambiguationElements results !! k)
        <-> k = "prev"
            \/ (k = "next" /\ length results = 20%nat)
            \/ (exists i : nat,
                  (i < length results)%nat /\ k = pretty (Z.of_nat i))).
Proof.
  split.
  - unfold CreateDisambiguationElements. cbv zeta.
    assert (size (item_options_from 0 results ∅) = length results) as Hsz.
    { rewrite item_options_from_keyed, keyed_from_size, map_size_empty; [done|].
      intros j _. apply lookup_empty. }
    destruct (Z.eqb_spec (Z.of_nat (length results)) limit) as [Heq|Hne].
    + rewrite decide_True by (unfold limit in Heq; lia).
      rewrite !map_size_insert_None, Hsz; [lia|..].
      * rewrite item_options_from_other by apply pretty_not_next.
        apply lookup_empty.
      * rewrite lookup_insert_ne by done.
        rewrite item_options_from_other by apply pretty_not_prev.
        apply lookup_empty.
    + rewrite decide_False by (unfold limit in Hne; lia).
      rewrite map_size_insert_None, Hsz; [lia|].
      rewrite item_options_from_other by apply pretty_not_prev.
      apply lookup_empty.
  - intros k. split.
    + intros Hk.
      destruct (decide (k = "prev")) as [->|Hp]; [by left|].
      destruct (decide (k = "next")) as [->|Hn].
      { right. left. split; [done|].
        rewrite CreateDisambiguationElements_next in Hk.
        destruct (Z.eqb_spec (Z.of_nat (length results)) limit) as [Heq|Hne].
        - unfold limit in Heq. lia.
        - by destruct Hk. }
      right. right. revert Hk.
      unfold CreateDisambiguationElements. cbv zeta.
      rewrite lookup_insert_ne by done.
      assert (is_Some (item_options_from 0 results ∅ !! k) ->
              exists i : nat,
                (i < length results)%nat /\ k = pretty (Z.of_nat i)) as Hitems.
      { rewrite item_options_from_keyed. intros Hk.
        apply keyed_from_is_Some in Hk as [Hk|(n & Hlt & ->)].
        - rewrite lookup_empty in Hk. by destruct Hk.
        - exists n. split; [done|]. by rewrite Z.add_0_l. }
      destruct (Z.of_nat (length results) =? limit)%Z; [|exact Hitems].
      by rewrite lookup_insert_ne.
    + intros [->|[[-> Hlen]|(i & Hi & ->)]].
      * rewrite CreateDisambiguationElements_prev. by eexists.
      * rewrite CreateDisambiguationElements_next.
        destruct (Z.eqb_spec (Z.of_nat (length results)) limit) as [Heq|Hne].
        -- by eexists.
        -- unfold limit in Hne. lia.
      * destruct (lookup_lt_is_Some_2 results i Hi) as [item Hitem].
        rewrite (CreateDisambiguationElements_item results i item Hitem).
        by eexists.
Qed.

(** ** Whispers, requests and the cursor along a session *)

Ltac unfold_loop :=
  unfold GetLookupResults, http, emit, log, set_skip, set_searchParams,
    ClearSearchParams, mbind, M_bind, bind, gets, modify, ret, panic;
  simpl;
  repeat (case_match; simpl in *; simplify_eq); simpl.

Lemma steps_weaken (R R' : World -> World -> Prop) {A} (m : M A) :
  (forall w w', R w w' -> R' w w') -> steps R m -> steps R' m.
Proof. intros HR Hm w. apply HR, Hm. Qed.

Lemma navigate_app (s : Z) (l1 l2 : list Nav) :
  navigate s (l1 ++ l2) = navigate (navigate s l1) l2.
Proof. unfold navigate. apply fold_left_app. Qed.

#[global] Instance navigated_preorder : PreOrder navigated.
Proof.
  split.
  - intros w. exists []. split; [done | simpl; lia].
  - intros w1 w2 w3 (l1 & H1 & L1) (l2 & H2 & L2). exists (l1 ++ l2)%list.
    split.
    + by rewrite navigate_app, <- H1.
    + rewrite length_app. lia.
Qed.

#[global] Instance keeps_sent_preorder P : PreOrder (keeps_sent P).
Proof.
  split.
  - intros w H. exact H.
  - intros w1 w2 w3 H1 H2 H. apply H2, H1, H.
Qed.

Lemma same_cursor_navigated w w' : same_cursor w w' -> navigated w w'.
Proof.
  intros [Hs Hsent]. exists []. split; [done|]. rewrite Hsent. simpl. lia.
Qed.

Lemma same_cursor_keeps_sent P w w' : same_cursor w w' -> keeps_sent P w w'.
Proof. intros [_ Hsent] H. by rewrite Hsent. Qed.

Section SessionFacts.

Variable host : Host.

(** *** Every request asks for a page of 20 *)

Lemma keeps_sent_modify P f :
  (forall w, sent (f w) = sent w) -> steps (keeps_sent P) (modify f).
Proof. intros H w Hall. simpl. by rewrite H. Qed.

Lemma keeps_sent_emit P wh : steps (keeps_sent P) (emit host wh).
Proof. intros w Hall. exact Hall. Qed.

Lemma keeps_sent_http (P : string -> Prop) url :
  P url -> steps (keeps_sent P) (http host url).
Proof.
  intros H w Hall. simpl. apply Forall_app. split; [exact Hall|].
  by constructor.
Qed.

Ltac keeps_sent_step :=
  first
    [ apply keeps_sent_emit
    | apply keeps_sent_modify; reflexivity
    | apply keeps_sent_http; unfold is_lookup; solve [eauto]
    | steps_step ].

Lemma keeps_sent_GetLookupResults sp s :
  steps (keeps_sent is_lookup) (GetLookupResults host sp limit s).
Proof. unfold GetLookupResults, log. repeat keeps_sent_step. Qed.

Lemma keeps_sent_fire a : steps (keeps_sent is_lookup) (fire host a).
Proof.
  destruct a; simpl;
    unfold OnChange_item, OnChange_next, OnChange_prev, set_skip, log;
    repeat first [apply keeps_sent_GetLookupResults | keeps_sent_step].
Qed.

Lemma keeps_sent_select s : steps (keeps_sent is_lookup) (select host s).
Proof. unfold select. repeat first [apply keeps_sent_fire | keeps_sent_step]. Qed.

Lemma keeps_sent_edit e :
  steps (keeps_sent is_lookup) (edit (CreateFormInputs host) e).
Proof.
  eapply steps_weaken; [apply same_cursor_keeps_sent | apply same_cursor_edit].
Qed.

Lemma keeps_sent_run edits isSubmitted during :
  steps (keeps_sent is_lookup) (run host edits isSubmitted during).
Proof.
  unfold run, Form, Disambiguation, ClearSearchParams, set_searchParams, log.
  repeat first
    [ apply keeps_sent_edit | apply keeps_sent_select
    | apply keeps_sent_GetLookupResults | keeps_sent_step ].
Qed.

Lemma keeps_sent_session events :
  steps (keeps_sent is_lookup) (session host events).
Proof.
  unfold session. apply steps_forM_; [apply _|].
  intros [text err edits b during|s]; simpl.
  - unfold searchbar, log. repeat first [apply keeps_sent_run | keeps_sent_step].
  - apply keeps_sent_select.
Qed.

(** *** The cursor moves by navigation only *)

Lemma navigated_modify f :
  (forall w, skip (f w) = skip w) -> (forall w, sent (f w) = sent w) ->
  steps navigated (modify f).
Proof.
  intros H1 H2 w. apply same_cursor_navigated. split; simpl; [apply H1 | apply H2].
Qed.

Lemma navigated_emit wh : steps navigated (emit host wh).
Proof. intros w. by apply same_cursor_navigated. Qed.

Lemma navigated_GetLookupResults sp l s :
  steps navigated (GetLookupResults host sp l s).
Proof.
  intros w. destruct (GetLookupResults_world host sp l s w) as (Hs & _ & Hsent & _).
  exists []. split; [done|]. rewrite Hsent, length_app. simpl. lia.
Qed.

Lemma navigated_fire a : steps navigated (fire host a).
Proof.
  intros w. destruct a as [item| |]; simpl.
  - destruct (OnChange_item_world host item w) as (Hs & _ & Hsent).
    apply same_cursor_navigated. by split.
  - destruct (OnChange_next_world host w) as (Hs & _ & Hsent).
    exists [Next]. split; [done|]. rewrite Hsent, length_app. simpl. lia.
  - destruct (OnChange_prev_world host w) as (Hs & _ & Hsent).
    exists [Prev]. split; [done|]. rewrite Hsent, length_app. simpl. lia.
Qed.

Ltac navigated_step :=
  first
    [ apply navigated_emit
    | apply navigated_modify; reflexivity
    | steps_step ].

Lemma navigated_select s : steps navigated (select host s).
Proof. unfold select. repeat first [apply navigated_fire | navigated_step]. Qed.

Lemma navigated_edit e : steps navigated (edit (CreateFormInputs host) e).
Proof.
  eapply steps_weaken; [apply same_cursor_navigated | apply same_cursor_edit].
Qed.

Lemma navigated_run edits isSubmitted during :
  steps navigated (run host edits isSubmitted during).
Proof.
  unfold run, Form, Disambiguation, ClearSearchParams, set_searchParams, log.
  repeat first
    [ apply navigated_edit | apply navigated_select
    | apply navigated_GetLookupResults | navigated_step ].
Qed.

Lemma navigated_session events : steps navigated (session host events).
Proof.
  unfold session. apply steps_forM_; [apply _|].
  intros [text err edits b during|s]; simpl.
  - unfold searchbar, log. repeat first [apply navigated_run | navigated_step].
  - apply navigated_select.
Qed.

End SessionFacts.

(** X8. Along any session, whatever the host answers, every request the
    loop sends is the registry URL of some query with [limit=20]: the page
    size never varies. *)
Theorem every_request_asks_for_twenty (host : Host) (events : list Event) :
  Forall (fun url => exists sp s, url = lookup_url sp 20 s)
    (sent (world_of (session host events initial))).
Proof.
  exact (keeps_sent_session host events initial (Forall_nil_2 _)).
Qed.

(** X9. Along any session, as long as the requests sent are too few for a
    Go [int] to overflow, the cursor is a multiple of 20 between 0 and 20
    times the number of requests sent: only [next] and [prev] move it, each
    at the price of a request. *)
Theorem cursor_is_a_page_boundary (host : Host) (events : list Event) :
  let w := world_of (session host events initial) in
  (20 * Z.of_nat (length (sent w)) <= max_int)%Z ->
  (0 <= skip w <= 20 * Z.of_nat (length (sent w)))%Z /\ (20 | skip w)%Z.
Proof.
  cbv zeta. intros Hmax.
  destruct (navigated_session host events initial) as (l & Hl & Hlen).
  simpl in Hl, Hlen. rewrite Hl.
  destruct (navigate_bounds l 0) as [[H1 H2] H3].
  - lia.
  - apply Z.divide_0_r.
  - unfold limit. lia.
  - unfold limit in *. split; [lia | done].
Qed.

Lemma cursor_is_a_page_boundary_after_two_pages :
  let w :=
    world_of
      (session registry
         [Searchbar "npi" None [("lastName", "Smith")] true
            [mkSelection 1 "next"; mkSelection 2 "next"; mkSelection 3 "prev"]]
         initial) in
  (20 * Z.of_nat (length (sent w)) <= max_int)%Z
  /\ (0 <= skip w <= 20 * Z.of_nat (length (sent w)))%Z /\ (20 | skip w)%Z.
Proof.
  cbv zeta.
  assert (20 * Z.of_nat (length (sent (world_of
            (session registry
               [Searchbar "npi" None [("lastName", "Smith")] true
                  [mkSelection 1 "next"; mkSelection 2 "next";
                   mkSelection 3 "prev"]] initial)))) <= max_int)%Z as Hmax.
  { vm_compute. discriminate. }
  split; [exact Hmax|].
  exact (cursor_is_a_page_boundary registry _ Hmax).
Defined.

(** ** Selections, the trigger and the form *)

(** X10. Selecting the [i]-th record of a choice list on screen shows the
    detail view of that record, titled with its number, and does nothing
    else: no request, no change to the cursor or the query, no panic. *)
Theorem selecting_a_record_shows_its_detail (host : Host) (w : World)
    (n : nat) (label : string) (results : list NpiInfo.t) (i : nat)
    (item : NpiInfo.t) :
  shown w !! n
  = Some (WDisambiguation label (CreateDisambiguationElements results)) ->
  results !! i = Some item ->
  let r := select host (mkSelection n (pretty (Z.of_nat i))) w in
  panicked r = false
  /\ shown (world_of r)
     = (shown w
        ++ [WList ("Information for " +:+ pretty (NpiInfo.Number item))
              (CreateListElements item)])%list
  /\ skip (world_of r) = skip w
  /\ searchParams (world_of r) = searchParams w
  /\ sent (world_of r) = sent w.
Proof.
  intros Hn Hi. cbv zeta.
  unfold select. rewrite (bind_ok (gets shown) _ w (shown w) w eq_refl).
  cbv beta. cbn [whisper key]. rewrite Hn.
  rewrite (CreateDisambiguationElements_item results i item Hi).
  simpl. unfold OnChange_item. unfold_loop; done.
Qed.

Lemma selecting_a_record_shows_its_detail_third :
  let w :=
    world_of (run registry [("lastName", "Smith")] true [] initial) in
  shown w !! 1%nat
  = Some (WDisambiguation "LookupNPI Results for:   Smith*   "
            (CreateDisambiguationElements full_page))
  /\ full_page !! 2%nat = Some (provider 2)
  /\ shown (world_of (select registry (mkSelection 1 "2") w))
     = (shown w
        ++ [WList "Information for 1000000002"
              (CreateListElements (provider 2))])%list.
Proof.
  cbv zeta.
  assert (shown (world_of (run registry [("lastName", "Smith")] true [] initial))
            !! 1%nat
          = Some (WDisambiguation "LookupNPI Results for:   Smith*   "
                    (CreateDisambiguationElements full_page))) as Hn.
  { vm_compute. reflexivity. }
  split; [exact Hn|]. split; [reflexivity|].
  destruct (selecting_a_record_shows_its_detail registry _ 1
              "LookupNPI Results for:   Smith*   " full_page 2 (provider 2)
              Hn eq_refl) as (_ & Hshown & _).
  exact Hshown.
Defined.

(** X11. Only the two spellings NPI and npi of the search text open the
    form. On any other text, and on any text that comes with an error, the
    callback writes its log lines and does nothing else: no whisper, no
    request, no change to the cursor or the query. *)
Theorem only_the_exact_trigger_opens_the_form (host : Host) (text : string)
    (err : option error) (edits : list (string * string)) (isSubmitted : bool)
    (during : list Selection) (w : World) :
  err <> None \/ (text <> "NPI" /\ text <> "npi") ->
  searchbar host text err edits isSubmitted during w
  = Ok tt
      (mkWorld (skip w) (searchParams w) (sent w) (shown w)
         (logged w
          ++ Info "loop callback called"
             :: match err with
                | Some e => [Error "received error from callback" e]
                | None => []
                end)%list).
Proof.
  intros H. unfold searchbar.
  rewrite (bind_ok (log (Info "loop callback called")) _ w tt _ eq_refl).
  destruct err as [e|].
  - unfold log, modify. simpl. by rewrite <- app_assoc.
  - destruct H as [H|[H1 H2]]; [done|].
    apply String.eqb_neq in H1, H2. rewrite H1, H2. reflexivity.
Qed.

Lemma only_the_exact_trigger_opens_the_form_mixed_case :
  (None <> (None : option error) \/ ("Npi" <> "NPI" /\ "Npi" <> "npi"))
  /\ searchbar registry "Npi" None [("lastName", "Smith")] true [] initial
     = Ok tt (mkWorld 0 SearchParams.zero [] [] [Info "loop callback called"]).
Proof.
  assert (None <> (None : option error) \/ ("Npi" <> "NPI" /\ "Npi" <> "npi"))
    as H by (right; split; discriminate).
  split; [exact H|].
  exact (only_the_exact_trigger_opens_the_form registry "Npi" None
           [("lastName", "Smith")] true [] initial H).
Defined.

(** X12. The city and state inputs warn when the other field is empty at
    that moment, and an input that has been edited is never empty (it holds
    at least the wildcard): once the state input has been edited, whatever
    was typed, editing the city no longer warns, and the other way round.
    The warning can only fire on the first of the two fields to be
    touched. *)
Theorem city_state_warn_only_on_first_touch (host : Host)
    (city state : string) (w : World) :
  (SearchParams.State (searchParams w) = "" ->
   shown (world_of (OnChange_city host city w))
   = (shown w
      ++ [WMarkdown "LookNPI Error" "Searching by City requires State"])%list)
  /\ (SearchParams.City (searchParams w) = "" ->
      shown (world_of (OnChange_state host state w))
      = (shown w
         ++ [WMarkdown "LookNPI Error" "Searching by State requires City"])%list)
  /\ shown (world_of (OnChange_city host city
                        (world_of (OnChange_state host state w))))
     = shown (world_of (OnChange_state host state w))
  /\ shown (world_of (OnChange_state host state
                        (world_of (OnChange_city host city w))))
     = shown (world_of (OnChange_city host city w)).
Proof.
  assert (forall s, String.eqb (s +:+ "*") "" = false) as Hstar.
  { intros s. apply String.eqb_neq. by destruct s. }
  unfold OnChange_city, OnChange_state, set_City, set_State.
  split; [|split; [|split]].
  - intros H. unfold_loop; try done.
    rewrite H in *. discriminate.
  - intros H. unfold_loop; try done.
    rewrite H in *. discriminate.
  - unfold_loop; try done;
      match goal with
      | H : String.eqb (_ +:+ "*") "" = true |- _ => by rewrite Hstar in H
      end.
  - unfold_loop; try done;
      match goal with
      | H : String.eqb (_ +:+ "*") "" = true |- _ => by rewrite Hstar in H
      end.
Qed.

(** ** The lookup and [run], end to end *)

(** X13. [GetLookupResults] sends exactly one request, and panics exactly
    when the transport hands back no response object: it reads the data of
    the response without having returned on the transport's error, which
    it has logged by then. *)
Theorem lookup_panics_exactly_on_nil_response (host : Host)
    (sp : SearchParams.t) (l s : Z) (w : World) :
  (panicked (GetLookupResults host sp l s w) = true
   <-> (HTTPRequest host (length (sent w)) (lookup_url sp l s)).1 = None)
  /\ sent (world_of (GetLookupResults host sp l s w))
     = (sent w ++ [lookup_url sp l s])%list
  /\ (forall e,
        HTTPRequest host (length (sent w)) (lookup_url sp l s) = (None, Some e) ->
        logged (world_of (GetLookupResults host sp l s w))
        = (logged w ++ [Error "Lookup failed" e])%list).
Proof.
  split; [|split].
  - destruct (HTTPRequest host (length (sent w)) (lookup_url sp l s))
      as [[resp|] err] eqn:E; simpl.
    + rewrite (GetLookupResults_response host sp l s w resp err E). simpl.
      split; discriminate.
    + rewrite (GetLookupResults_nil host sp l s w err E). done.
  - apply GetLookupResults_world.
  - intros e E. unfold_loop; done.
Qed.

(** X14. When the transport has no response object for the lookup of
    [run], [run] panics once the form is closed: the request has been sent,
    no choice list is shown, and the query is not cleared. *)
Theorem run_panics_on_nil_response (host : Host)
    (edits : list (string * string)) (isSubmitted : bool)
    (during : list Selection) (w : World) (err : option error) :
  let q := searchParams (form_world host edits isSubmitted w) in
  HTTPRequest host (length (sent w)) (lookup_url (RemoveSpaces q) limit 0)
  = (None, err) ->
  let r := run host edits isSubmitted during w in
  panicked r = true
  /\ sent (world_of r) = (sent w ++ [lookup_url (RemoveSpaces q) limit 0])%list
  /\ shown (world_of r) = shown (form_world host edits isSubmitted w)
  /\ searchParams (world_of r) = q.
Proof.
  cbv zeta. intros E.
  destruct (run_lookup host edits isSubmitted during w)
    as (w2 & (Hskip & Hsent & Hsp & Hshown) & ->).
  rewrite <- Hsp, <- Hsent in E.
  pose proof (GetLookupResults_nil host _ _ _ _ _ E) as Hp.
  destruct (GetLookupResults_world host (RemoveSpaces (searchParams w2))
              limit 0 w2) as (_ & Hq & Hs & Hsh).
  destruct (GetLookupResults host (RemoveSpaces (searchParams w2)) limit 0 w2)
    as [lr w3|w3] eqn:HG; [done|].
  rewrite (bind_panic _ _ _ _ HG).
  simpl in *. rewrite Hs, Hsh, Hq, Hsent, Hshown, Hsp. done.
Qed.

Lemma run_panics_on_nil_response_unplugged :
  let unplugged :=
    mkHost (fun _ _ => (None, Some "no route to host")) decode_full whisper_ok in
  HTTPRequest unplugged (length (sent initial))
    (lookup_url
       (RemoveSpaces
          (searchParams (form_world unplugged [("lastName", "Smith")] true initial)))
       limit 0)
  = (None, Some "no route to host")
  /\ panicked (run unplugged [("lastName", "Smith")] true [] initial) = true.
Proof.
  cbv zeta. split; [reflexivity|].
  destruct (run_panics_on_nil_response
              (mkHost (fun _ _ => (None, Some "no route to host"))
                 decode_full whisper_ok)
              [("lastName", "Smith")] true [] initial
              (Some "no route to host") eq_refl) as (Hp & _).
  exact Hp.
Defined.

(** X15. A submitted search whose lookup gets a response shows one choice
    list after the form: built from the decoded page, and titled with the
    query as the form stored it (spaces kept) while the request carried it
    with the spaces replaced. [run] then returns with the query cleared and
    the cursor untouched. *)
Theorem submitted_search_shows_the_page (host : Host)
    (edits : list (string * string)) (w : World)
    (resp : HTTPResponse.t) (err : option error) :
  let q := searchParams (form_world host edits true w) in
  HTTPRequest host (length (sent w)) (lookup_url (RemoveSpaces q) limit 0)
  = (Some resp, err) ->
  exists w',
    run host edits true [] w = Ok tt w'
    /\ shown w'
       = (shown (form_world host edits true w)
          ++ [WDisambiguation (results_label q)
                (CreateDisambiguationElements
                   (LookupResults.Results
                      (Unmarshal host (HTTPResponse.Data resp)
                         LookupResults.zero).1))])%list
    /\ sent w' = (sent w ++ [lookup_url (RemoveSpaces q) limit 0])%list
    /\ skip w' = skip w
    /\ searchParams w' = SearchParams.zero.
Proof.
  cbv zeta. intros E.
  destruct (run_lookup host edits true [] w)
    as (w2 & (Hskip & Hsent & Hsp & Hshown) & ->).
  rewrite <- Hsp, <- Hsent in E.
  rewrite (bind_ok _ _ _ _ _ (GetLookupResults_response host _ _ _ _ _ _ E)).
  unfold Disambiguation, emit, ClearSearchParams, set_searchParams,
    mbind, M_bind, bind, gets, modify, ret. simpl.
  eexists. split; [reflexivity|]. simpl.
  rewrite Hshown, Hsent, Hsp, Hskip. done.
Qed.

Lemma submitted_search_shows_the_page_van_dyke :
  HTTPRequest registry (length (sent initial))
    (lookup_url
       (RemoveSpaces
          (searchParams
             (form_world registry [("lastName", "Van Dyke")] true initial)))
       limit 0)
  = (Some (HTTPResponse.mk 200 "{}"), None)
  /\ (exists w',
        run registry [("lastName", "Van Dyke")] true [] initial = Ok tt w'
        /\ sent w'
           = [lookup_url (SearchParams.mk "" "" "Van+Dyke*" "" "" "") 20 0]
        /\ shown w'
           = [WForm "NPI Lookup" "Enter Search Criteria" "Cancel" "Search";
              WDisambiguation "LookupNPI Results for:   Van Dyke*   "
                (CreateDisambiguationElements full_page)]).
Proof.
  split; [reflexivity|].
  destruct (submitted_search_shows_the_page registry
              [("lastName", "Van Dyke")] initial
              (HTTPResponse.mk 200 "{}") None eq_refl)
    as (w' & Hrun & Hshown & Hsent & _).
  exists w'. split; [exact Hrun|]. split; [exact Hsent | exact Hshown].
Defined.

(** ** The form *)

Lemma edit_shown (host : Host) (e : string * string) (w : World) :
  exists l,
    shown (world_of (edit (CreateFormInputs host) e w)) = (shown w ++ l)%list
    /\ (length l <= 1)%nat /\ Forall is_warning l.
Proof.
  unfold edit.
  destruct (CreateFormInputs host !! e.1) as [input|] eqn:Hin.
  - apply CreateFormInputs_lookup in Hin.
    destruct Hin as [[-> _]|[[-> _]|[[-> _]|[[-> _]|[[-> _]|[-> _]]]]]];
      unfold OnChange_number, OnChange_firstName, OnChange_lastName,
        OnChange_organization, OnChange_city, OnChange_state, set_Number,
        set_FirstName, set_LastName, set_Organization, set_City, set_State;
      unfold_loop;
      first
        [ by (exists []; rewrite app_nil_r; repeat split; [simpl; lia | constructor])
        | by (eexists [_]; repeat split; [simpl; lia | repeat constructor]) ].
  - exists []. rewrite app_nil_r. repeat split; [simpl; lia | constructor].
Qed.

(** X16. Whatever is typed into whichever input, and whatever the whisper
    service answers, handling the edit never panics, sends no request,
    leaves the cursor alone, and emits at most one whisper, a warning. *)
Theorem form_edits_stay_local (host : Host) (e : string * string) (w : World) :
  panicked (edit (CreateFormInputs host) e w) = false
  /\ skip (world_of (edit (CreateFormInputs host) e w)) = skip w
  /\ sent (world_of (edit (CreateFormInputs host) e w)) = sent w
  /\ (exists l,
        shown (world_of (edit (CreateFormInputs host) e w)) = (shown w ++ l)%list
        /\ (length l <= 1)%nat /\ Forall is_warning l).
Proof.
  split; [apply never_panics_edit|].
  destruct (same_cursor_edit host e w) as [Hs Hsent].
  split; [exact Hs|]. split; [exact Hsent|]. apply edit_shown.
Qed.

Lemma edit_same_form_state (host : Host) (e : string * string) (w1 w2 : World) :
  same_form_state w1 w2 ->
  same_form_state (world_of (edit (CreateFormInputs host) e w1))
    (world_of (edit (CreateFormInputs host) e w2)).
Proof.
  intros [Hq Hn]. unfold edit, same_form_state.
  destruct (CreateFormInputs host !! e.1) as [input|] eqn:Hin; [|done].
  apply CreateFormInputs_lookup in Hin.
  destruct Hin as [[-> _]|[[-> _]|[[-> _]|[[-> _]|[[-> _]|[-> _]]]]]];
    unfold OnChange_number, OnChange_firstName, OnChange_lastName,
      OnChange_organization, OnChange_city, OnChange_state, set_Number,
      set_FirstName, set_LastName, set_Organization, set_City, set_State,
      emit, log, set_searchParams, mbind, M_bind, bind, gets, modify, ret;
    simpl; rewrite <- ?Hn, <- ?Hq;
    repeat (case_match; simpl);
    rewrite ?length_app, <- ?Hn, <- ?Hq; try done;
    exfalso;
    match goal with
    | H : WhisperErr host (length (shown w2)) = _ |- _ =>
        rewrite <- Hn in H; congruence
    end.
Qed.

(** X17. The query a form leaves behind depends on the edits and on the
    answers of the whisper service only, not on the query [run] found:
    nothing of an earlier search is left in it. *)
Theorem form_forgets_the_previous_query (host : Host)
    (edits : list (string * string)) (isSubmitted : bool) (w1 w2 : World) :
  length (shown w1) = length (shown w2) ->
  searchParams (form_world host edits isSubmitted w1)
  = searchParams (form_world host edits isSubmitted w2).
Proof.
  intros Hn. rewrite !form_world_edits.
  assert (same_form_state (form_opened w1) (form_opened w2)) as H0.
  { split; [done|]. simpl. rewrite !length_app. simpl. lia. }
  revert H0. generalize (form_opened w1) (form_opened w2).
  induction edits as [|e edits IH]; intros u1 u2 Hu; [apply Hu|].
  rewrite !forM__cons_world by apply never_panics_edit.
  by apply IH, edit_same_form_state.
Qed.

Lemma form_forgets_the_previous_query_leftover :
  let leftover :=
    mkWorld 60 (SearchParams.mk "1234567890" "ANN*" "LEE*" "RENO*" "NV*" "")
      [] [] [] in
  length (shown leftover) = length (shown initial)
  /\ searchParams (form_world registry [("lastName", "Smith")] true leftover)
     = SearchParams.mk "" "" "Smith*" "" "" "".
Proof.
  cbv zeta. split; [reflexivity|].
  rewrite (form_forgets_the_previous_query registry [("lastName", "Smith")] true
             (mkWorld 60
                (SearchParams.mk "1234567890" "ANN*" "LEE*" "RENO*" "NV*" "")
                [] [] []) initial eq_refl).
  reflexivity.
Defined.

(** ** Navigation at the edges *)

Lemma CreateDisambiguationElements_nil :
  CreateDisambiguationElements []
  = {["prev" := DOption.mk "Previous 20 Results" 1 PrevPage]}.
Proof. reflexivity. Qed.

(** X18. When the lookup of [next] gets a response but the decoder leaves
    the page without records (as it does when decoding fails on the
    zero-valued page), [next] has moved the cursor all the same and shows a
    choice list whose only option is [prev], titled with the current
    query. *)
Theorem next_onto_an_empty_page (host : Host) (w : World)
    (resp : HTTPResponse.t) (err : option error) :
  HTTPRequest host (length (sent w))
    (lookup_url (searchParams w) limit (next_skip (skip w)))
  = (Some resp, err) ->
  LookupResults.Results
    (Unmarshal host (HTTPResponse.Data resp) LookupResults.zero).1 = [] ->
  panicked (OnChange_next host w) = false
  /\ skip (world_of (OnChange_next host w)) = next_skip (skip w)
  /\ shown (world_of (OnChange_next host w))
     = (shown w
        ++ [WDisambiguation (results_label (searchParams w))
              {["prev" := DOption.mk "Previous 20 Results" 1 PrevPage]}])%list.
Proof.
  intros E Hnil. unfold OnChange_next.
  rewrite (bind_ok (gets skip) _ w (skip w) w eq_refl). cbv beta.
  rewrite (bind_ok (set_skip (next_skip (skip w))) _ w tt _ eq_refl).
  set (w1 := mkWorld (next_skip (skip w)) (searchParams w) (sent w) (shown w)
               (logged w)).
  rewrite (bind_ok (gets searchParams) _ w1 (searchParams w) w1 eq_refl).
  cbv beta.
  rewrite (bind_ok (gets skip) _ w1 (next_skip (skip w)) w1 eq_refl).
  cbv beta.
  rewrite (bind_ok _ _ _ _ _
             (GetLookupResults_response host (searchParams w) limit
                (next_skip (skip w)) w1 resp err E)).
  rewrite Hnil, CreateDisambiguationElements_nil.
  unfold emit, log, mbind, M_bind, bind, gets, modify, ret. simpl.
  destruct (WhisperErr host (length (shown w))); simpl; done.
Qed.

Lemma next_onto_an_empty_page_garbled :
  HTTPRequest garbled (length (sent initial))
    (lookup_url (searchParams initial) limit (next_skip (skip initial)))
  = (Some (HTTPResponse.mk 502 "Bad Gateway"), None)
  /\ LookupResults.Results
       (Unmarshal garbled "Bad Gateway" LookupResults.zero).1 = []
  /\ skip (world_of (OnChange_next garbled initial)) = 20%Z
  /\ shown (world_of (OnChange_next garbled initial))
     = [WDisambiguation "LookupNPI Results for:      "
          {["prev" := DOption.mk "Previous 20 Results" 1 PrevPage]}].
Proof.
  split; [reflexivity|]. split; [reflexivity|].
  destruct (next_onto_an_empty_page garbled initial
              (HTTPResponse.mk 502 "Bad Gateway") None eq_refl eq_refl)
    as (_ & Hskip & Hshown).
  split; [exact Hskip | exact Hshown].
Defined.

(** X19. [prev] at offset 0 is not a no-op: the cursor stays at 0, but the
    closure still sends a request, for offset 0 of the current query. *)
Theorem prev_at_zero_still_requests (host : Host) (w : World) :
  skip w = 0%Z ->
  skip (world_of (OnChange_prev host w)) = 0%Z
  /\ sent (world_of (OnChange_prev host w))
     = (sent w ++ [lookup_url (searchParams w) 20 0])%list.
Proof.
  intros H0. destruct (OnChange_prev_world host w) as (Hs & _ & Hsent).
  rewrite Hs, Hsent, H0. done.
Qed.

Lemma prev_at_zero_still_requests_initially :
  skip initial = 0%Z
  /\ sent (world_of (OnChange_prev registry initial))
     = [lookup_url SearchParams.zero 20 0].
Proof.
  split; [reflexivity|].
  destruct (prev_at_zero_still_requests registry initial eq_refl) as [_ H].
  exact H.
Defined.
